(** * VibeDashboard: the usage aggregation and period-filtering pipeline

    A shallow embedding of [src/parser.js] (mergeUsageData, filterByPeriod,
    calculateSummary, getModelBreakdown, validateData) and of the helpers of
    [src/utils.js] they call (calculatePercentage, getPeriodRange,
    isDateInRange), followed by the properties of the specification that
    concern them.  The rest of the data path is embedded as well:
    transformCcusageFormat, processData, getDailyUsage and getTopModel of
    [src/parser.js], escapeXml of [src/utils.js], and the marker handling
    of [src/updater.js] (findMarkers, insertContent, updateReadme,
    hasMarkers, addMarkers), with further properties read off the code.

    Conventions of the embedding:
    - a JavaScript Number is an element of a type [num] that carries the
      operations the code uses (class [JSNumber]).  Two instances are given:
      [Binary64] (IEEE 754 doubles, what the engine computes with) and
      [Exact] (canonical rationals, the arithmetic in which the
      specification reasons about sums and ratios);
    - a field that may be absent is an [option]; [x || 0] is [num_or0];
    - an object used as a mapping is the list of its entries in
      [Object.entries] order (keys pairwise distinct, see [obj_wf]);
    - [new Date()] is an explicit argument [now], a time value in
      milliseconds since the epoch; [new Date(string)] is the argument
      [Date_parse], [None] standing for an Invalid Date. *)

From Stdlib Require Import ZArith QArith Qcanon Qround Floats Uint63.
From Stdlib Require Import Bool String Ascii List Permutation Sorted Lia Lqa.
Import ListNotations.

Set Implicit Arguments.
Local Open Scope string_scope.
Local Open Scope list_scope.

(** ** JavaScript numbers *)

(** The operations on Number that the modelled code performs. *)
Class JSNumber (num : Type) : Type := {
  js_nat : nat -> num;               (* an integer literal, an array length *)
  js_add : num -> num -> num;        (* x + y *)
  js_sub : num -> num -> num;        (* x - y *)
  js_mul : num -> num -> num;        (* x * y *)
  js_div : num -> num -> num;        (* x / y *)
  js_falsy : num -> bool;            (* !x : x is +0, -0 or NaN *)
  js_eq0 : num -> bool;              (* x === 0 *)
  js_gt0 : num -> bool;              (* x > 0 *)
  Math_round : num -> num;           (* Math.round(x) *)
  toFixed : num -> nat -> num        (* Number(x.toFixed(d)) *)
}.

(** *** Binary64: the numbers of the engine *)

Module Binary64.

(** The double that holds the integer [z]; exact for [|z| <= 2^53]. *)
Definition of_Z (z : Z) : float :=
  match z with
  | Z0 => PrimFloat.zero
  | Zpos _ => PrimFloat.of_uint63 (Uint63.of_Z z)
  | Zneg p => PrimFloat.opp (PrimFloat.of_uint63 (Uint63.of_Z (Zpos p)))
  end.

Definition falsy (x : float) : bool :=
  PrimFloat.is_zero x || PrimFloat.is_nan x.

(** [floor (m * 2^e * 10^d + 1/2)] for a negative exponent [e]. *)
Definition round_half_up_scaled (m : positive) (e : Z) (d : nat) : Z :=
  let k := (- e)%Z in
  ((2 * (Zpos m) * 10 ^ Z.of_nat d + 2 ^ k) / 2 ^ (k + 1))%Z.

(** Math.round: the integer nearest to [x], ties towards +Infinity; NaN,
    the infinities and the zeros are returned as they are, and a result of
    zero keeps the sign of [x]. *)
Definition round (x : float) : float :=
  match Prim2SF x with
  | S754_finite s m e =>
      if (0 <=? e)%Z then x
      else
        let k := (- e)%Z in
        let sm := if s then Zneg m else Zpos m in
        let n := ((2 * sm + 2 ^ k) / 2 ^ (k + 1))%Z in
        if (n =? 0)%Z then (if s then PrimFloat.neg_zero else PrimFloat.zero)
        else of_Z n
  | _ => x
  end.

(** Number(x.toFixed(d)): [x] rounded to [d] decimals, ties away from zero,
    read back as a double.  A double with a non-negative exponent is an
    integer and prints as itself (also above 1e21, where toFixed falls back
    to ToString); NaN and the infinities print as their names. *)
Definition to_fixed (x : float) (d : nat) : float :=
  match Prim2SF x with
  | S754_finite s m e =>
      if (0 <=? e)%Z then x
      else
        let n := round_half_up_scaled m e d in
        match n with
        | Zpos p =>
            SF2Prim (SFdiv prec emax (S754_finite s p 0)
                       (S754_finite false (Z.to_pos (10 ^ Z.of_nat d)) 0))
        | _ => if s then PrimFloat.neg_zero else PrimFloat.zero
        end
  | S754_zero _ => PrimFloat.zero
  | _ => x
  end.

#[global] Instance number : JSNumber float := {|
  js_nat := fun n => of_Z (Z.of_nat n);
  js_add := PrimFloat.add;
  js_sub := PrimFloat.sub;
  js_mul := PrimFloat.mul;
  js_div := PrimFloat.div;
  js_falsy := falsy;
  js_eq0 := fun x => PrimFloat.eqb x PrimFloat.zero;
  js_gt0 := fun x => PrimFloat.ltb PrimFloat.zero x;
  Math_round := round;
  toFixed := to_fixed
|}.

End Binary64.

(** *** Exact: rational arithmetic without rounding

    Division by zero never arises in the modelled code: the divisors are
    [totalCost || 1], the number of days (at least 1) and a total that was
    compared with 0 first. *)

Module Exact.

Definition of_Z (z : Z) : Qc := Q2Qc (inject_Z z).

(** The integer nearest to [q], ties towards +Infinity. *)
Definition round (q : Qc) : Qc := of_Z (Qfloor (this q + (1 # 2))).

(** [q] rounded to [d] decimals, ties away from zero. *)
Definition to_fixed (q : Qc) (d : nat) : Qc :=
  let scale := of_Z (10 ^ Z.of_nat d) in
  if Qle_bool 0 (this q) then (round (q * scale) / scale)%Qc
  else (- (round (- q * scale) / scale))%Qc.

#[global] Instance number : JSNumber Qc := {|
  js_nat := fun n => of_Z (Z.of_nat n);
  js_add := Qcplus;
  js_sub := Qcminus;
  js_mul := Qcmult;
  js_div := Qcdiv;
  js_falsy := fun q => Qeq_bool (this q) 0;
  js_eq0 := fun q => Qeq_bool (this q) 0;
  js_gt0 := fun q => negb (Qle_bool (this q) 0);
  Math_round := round;
  toFixed := to_fixed
|}.

End Exact.

(** The laws of exact arithmetic that the algebraic properties of merging
    rest on.  [Exact.number] satisfies them; [Binary64.number] does not
    (addition of doubles is not associative). *)
Class ExactArith {num : Type} (N : JSNumber num) : Prop := {
  js_add_comm : forall x y : num, js_add x y = js_add y x;
  js_add_assoc : forall x y z : num, js_add x (js_add y z) = js_add (js_add x y) z;
  js_add_0_l : forall x : num, js_add (js_nat 0) x = x;
  js_falsy_0 : forall x : num, js_falsy x = true -> x = js_nat 0
}.

(** ** Objects used as mappings *)

Section Objects.

Variable V : Type.

(** The entries of an object, in [Object.entries] order.  (Keys that are
    canonical array indices would be enumerated first; model identifiers
    and ISO dates are not of that form.) *)
Definition obj : Type := list (string * V).

(** [o[k]], [None] for undefined. *)
Fixpoint obj_get (k : string) (o : obj) : option V :=
  match o with
  | [] => None
  | (k', v) :: o' => if String.eqb k k' then Some v else obj_get k o'
  end.

(** [o[k] = v]: an existing key keeps its place, a new key comes last. *)
Fixpoint obj_set (k : string) (v : V) (o : obj) : obj :=
  match o with
  | [] => [(k, v)]
  | (k', v') :: o' =>
      if String.eqb k k' then (k, v) :: o' else (k', v') :: obj_set k v o'
  end.

Definition obj_keys (o : obj) : list string := map fst o.

(** The keys of an object are pairwise distinct. *)
Definition obj_wf (o : obj) : Prop := NoDup (obj_keys o).

End Objects.

(** ** The data model *)

Module ModelStats.
Record t (num : Type) : Type := mk {
  cost : option num;
  inputTokens : option num;
  outputTokens : option num
}.
End ModelStats.

Module DayStats.
Record t (num : Type) : Type := mk {
  cost : option num;
  tokens : option num
}.
End DayStats.

(** The raw usage record (internal format). *)
Module Raw.
Record t (num : Type) : Type := mk {
  totalCost : option num;
  totalInputTokens : option num;
  totalOutputTokens : option num;
  totalCacheCreationInputTokens : option num;
  totalCacheReadInputTokens : option num;
  byModel : option (obj (ModelStats.t num));
  byDay : option (obj (DayStats.t num))
}.
End Raw.

Module DailyAverage.
Record t (num : Type) : Type := mk {
  tokens : num;
  cost : num
}.
End DailyAverage.

Module Summary.
Record t (num : Type) : Type := mk {
  totalTokens : num;
  totalInputTokens : num;
  totalOutputTokens : num;
  totalCacheCreation : num;
  totalCacheRead : num;
  totalCost : num;
  dailyAverage : DailyAverage.t num;
  periodDays : nat
}.
End Summary.

Module ModelEntry.
Record t (num : Type) : Type := mk {
  name : string;
  shortName : string;
  cost : num;
  inputTokens : num;
  outputTokens : num;
  percentage : num
}.
End ModelEntry.

Module PeriodRange.
Record t : Type := mk {
  startDate : option Z;      (* null for no start limit *)
  endDate : Z;
  days : option nat
}.
End PeriodRange.

Module Validation.
Record t : Type := mk {
  isValid : bool;
  errors : list string
}.
End Validation.

(** An arbitrary JavaScript value, as [validateData] may receive one. *)
#[local] Set Warnings "-register-all".
Inductive value (num : Type) : Type :=
| VUndefined
| VNull
| VBoolean (b : bool)
| VNumber (n : num)
| VString (s : string)
| VFunction
| VArray (elements : list (value num))
| VObject (properties : list (string * value num)).

Arguments VUndefined {num}.
Arguments VNull {num}.
Arguments VBoolean {num} b.
Arguments VString {num} s.
Arguments VFunction {num}.

(** ** Dates (utils.js works on UTC days) *)

Definition msPerDay : Z := 86400000.

(** [d.setUTCHours(0, 0, 0, 0)] *)
Definition startOfUTCDay (t : Z) : Z := (t / msPerDay * msPerDay)%Z.

(** [d.setUTCHours(23, 59, 59, 999)] *)
Definition endOfUTCDay (t : Z) : Z := (startOfUTCDay t + 86399999)%Z.

(** [d.setUTCDate(d.getUTCDate() - n)] *)
Definition minusUTCDays (t : Z) (n : Z) : Z := (t - n * msPerDay)%Z.

(** [new Date(s)] for a date-only ISO string [YYYY-MM-DD] of the calendar:
    midnight UTC of that day.  Used for the concrete scenarios; the general
    results hold for any [Date_parse]. *)
Definition digit (c : ascii) : option Z :=
  let n := Z.of_nat (nat_of_ascii c) in
  if ((48 <=? n) && (n <=? 57))%Z then Some (n - 48)%Z else None.

Fixpoint digits (s : string) (acc : Z) : option Z :=
  match s with
  | EmptyString => Some acc
  | String c s' =>
      match digit c with
      | Some d => digits s' (10 * acc + d)%Z
      | None => None
      end
  end.

Definition isLeapYear (y : Z) : bool :=
  ((y mod 4 =? 0) && (negb (y mod 100 =? 0) || (y mod 400 =? 0)))%Z.

Definition daysInMonth (y m : Z) : Z :=
  if (m =? 2)%Z then (if isLeapYear y then 29 else 28)%Z
  else if ((m =? 4) || (m =? 6) || (m =? 9) || (m =? 11))%Z then 30%Z
  else 31%Z.

(** Days from 1970-01-01 to the civil date [y-m-d]. *)
Definition daysFromCivil (y m d : Z) : Z :=
  let y' := (if m <=? 2 then y - 1 else y)%Z in
  let era := (y' / 400)%Z in
  let yoe := (y' - era * 400)%Z in
  let mp := (if 2 <? m then m - 3 else m + 9)%Z in
  let doy := ((153 * mp + 2) / 5 + d - 1)%Z in
  let doe := (yoe * 365 + yoe / 4 - yoe / 100 + doy)%Z in
  (era * 146097 + doe - 719468)%Z.

Definition Date_parse_iso (s : string) : option Z :=
  if (String.length s =? 10)%nat
     && String.eqb (substring 4 1 s) "-" && String.eqb (substring 7 1 s) "-"
  then
    match digits (substring 0 4 s) 0, digits (substring 5 2 s) 0,
          digits (substring 8 2 s) 0 with
    | Some y, Some m, Some d =>
        if ((1 <=? m) && (m <=? 12) && (1 <=? d) && (d <=? daysInMonth y m))%Z
        then Some (daysFromCivil y m d * msPerDay)%Z
        else None
    | _, _, _ => None
    end
  else None.

(** ** utils.js and parser.js *)

Section Parser.

Context {num : Type} {N : JSNumber num}.

(** [new Date(s)] as a time value, [None] for an Invalid Date. *)
Variable Date_parse : string -> option Z.

(** [shortenModelName] of utils.js, on which no result below depends. *)
Variable shortenModelName : string -> string.

(** [x || d] on a field that holds a number or is absent. *)
Definition num_or (d : num) (x : option num) : num :=
  match x with
  | Some v => if js_falsy v then d else v
  | None => d
  end.

(** [x || 0] *)
Definition num_or0 (x : option num) : num := num_or (js_nat 0) x.

(** [acc += v] on an accumulator field.  The accumulators of the code are
    initialised with numbers, so the field is always present. *)
Definition plus_assign (acc : option num) (v : num) : option num :=
  match acc with
  | Some a => Some (js_add a v)
  | None => None
  end.

(** *** utils.js *)

Definition calculatePercentage (v total : num) (decimals : nat) : num :=
  if js_eq0 total then js_nat 0
  else
    let percentage := js_mul (js_div v total) (js_nat 100) in
    toFixed percentage decimals.

Definition getPeriodRange (period : string) (referenceDate : Z) : PeriodRange.t :=
  let endDate := endOfUTCDay referenceDate in
  let startDate := startOfUTCDay referenceDate in
  if String.eqb period "day" then
    PeriodRange.mk (Some startDate) endDate (Some 1%nat)
  else if String.eqb period "week" then
    PeriodRange.mk (Some (minusUTCDays startDate 6)) endDate (Some 7%nat)
  else if String.eqb period "month" then
    PeriodRange.mk (Some (minusUTCDays startDate 29)) endDate (Some 30%nat)
  else
    PeriodRange.mk None endDate None.

(** [isDateInRange] on a date given as a string, as parser.js calls it. *)
Definition isDateInRange (date : string) (range : PeriodRange.t) : bool :=
  match PeriodRange.startDate range with
  | None => true
  | Some startDate =>
      match Date_parse date with
      | Some d => ((startDate <=? d) && (d <=? PeriodRange.endDate range))%Z
      | None => false
      end
  end.

(** *** parser.js: mergeUsageData *)

Definition emptyUsage : Raw.t num :=
  Raw.mk (Some (js_nat 0)) (Some (js_nat 0)) (Some (js_nat 0))
         (Some (js_nat 0)) (Some (js_nat 0)) (Some []) (Some []).

Definition zeroModelStats : ModelStats.t num :=
  ModelStats.mk (Some (js_nat 0)) (Some (js_nat 0)) (Some (js_nat 0)).

Definition zeroDayStats : DayStats.t num :=
  DayStats.mk (Some (js_nat 0)) (Some (js_nat 0)).

Definition addModelStats (cur stats : ModelStats.t num) : ModelStats.t num :=
  ModelStats.mk
    (plus_assign (ModelStats.cost cur) (num_or0 (ModelStats.cost stats)))
    (plus_assign (ModelStats.inputTokens cur) (num_or0 (ModelStats.inputTokens stats)))
    (plus_assign (ModelStats.outputTokens cur) (num_or0 (ModelStats.outputTokens stats))).

Definition addDayStats (cur stats : DayStats.t num) : DayStats.t num :=
  DayStats.mk
    (plus_assign (DayStats.cost cur) (num_or0 (DayStats.cost stats)))
    (plus_assign (DayStats.tokens cur) (num_or0 (DayStats.tokens stats))).

(** One turn of a loop over the entries of a per-key mapping: create the
    zero entry when the key is new, then add the statistics to it. *)
Definition mergeEntry {S : Type} (zero : S) (add : S -> S -> S)
  (merged : obj S) (entry : string * S) : obj S :=
  let (key, stats) := entry in
  let cur := match obj_get key merged with Some cur => cur | None => zero end in
  obj_set key (add cur stats) merged.

Definition mergeEntries {S : Type} (zero : S) (add : S -> S -> S)
  (merged : option (obj S)) (entries : option (obj S)) : option (obj S) :=
  match entries, merged with
  | Some es, Some m => Some (fold_left (mergeEntry zero add) es m)
  | _, _ => merged
  end.

(** The body of the loop over [dataArray]. *)
Definition mergeOne (merged data : Raw.t num) : Raw.t num :=
  Raw.mk
    (plus_assign (Raw.totalCost merged) (num_or0 (Raw.totalCost data)))
    (plus_assign (Raw.totalInputTokens merged) (num_or0 (Raw.totalInputTokens data)))
    (plus_assign (Raw.totalOutputTokens merged) (num_or0 (Raw.totalOutputTokens data)))
    (plus_assign (Raw.totalCacheCreationInputTokens merged)
       (num_or0 (Raw.totalCacheCreationInputTokens data)))
    (plus_assign (Raw.totalCacheReadInputTokens merged)
       (num_or0 (Raw.totalCacheReadInputTokens data)))
    (mergeEntries zeroModelStats addModelStats (Raw.byModel merged) (Raw.byModel data))
    (mergeEntries zeroDayStats addDayStats (Raw.byDay merged) (Raw.byDay data)).

Definition mergeUsageData (dataArray : list (Raw.t num)) : Raw.t num :=
  match dataArray with
  | [] => emptyUsage
  | [data] => data
  | _ => fold_left mergeOne dataArray emptyUsage
  end.

(** *** parser.js: filterByPeriod *)

(** The loop over [Object.entries(data.byDay)]: the state is
    [(filtered.byDay, filtered.totalCost)]. *)
Definition filterDay (range : PeriodRange.t)
  (filtered : obj (DayStats.t num) * num) (entry : string * DayStats.t num)
  : obj (DayStats.t num) * num :=
  let (date, stats) := entry in
  if isDateInRange date range then
    (obj_set date stats (fst filtered),
     js_add (snd filtered) (num_or0 (DayStats.cost stats)))
  else filtered.

Definition filterDays (range : PeriodRange.t) (byDay : option (obj (DayStats.t num)))
  : obj (DayStats.t num) * num :=
  match byDay with
  | Some entries => fold_left (filterDay range) entries ([], js_nat 0)
  | None => ([], js_nat 0)
  end.

(** [Math.round((x || 0) * filteredCostRatio)] *)
Definition scaleTokens (ratio : num) (x : option num) : num :=
  Math_round (js_mul (num_or0 x) ratio).

Definition scaleModel (ratio : num) (filtered : obj (ModelStats.t num))
  (entry : string * ModelStats.t num) : obj (ModelStats.t num) :=
  let (model, stats) := entry in
  obj_set model
    (ModelStats.mk
       (Some (js_mul (num_or0 (ModelStats.cost stats)) ratio))
       (Some (scaleTokens ratio (ModelStats.inputTokens stats)))
       (Some (scaleTokens ratio (ModelStats.outputTokens stats))))
    filtered.

Definition filterByPeriod (now : Z) (data : Raw.t num) (period : string) : Raw.t num :=
  if String.eqb period "all" then data
  else
    let range := getPeriodRange period now in
    let filtered := filterDays range (Raw.byDay data) in
    let totalOriginalCost := num_or (js_nat 1) (Raw.totalCost data) in
    let filteredCostRatio := js_div (snd filtered) totalOriginalCost in
    Raw.mk
      (Some (snd filtered))
      (Some (scaleTokens filteredCostRatio (Raw.totalInputTokens data)))
      (Some (scaleTokens filteredCostRatio (Raw.totalOutputTokens data)))
      (Some (scaleTokens filteredCostRatio (Raw.totalCacheCreationInputTokens data)))
      (Some (scaleTokens filteredCostRatio (Raw.totalCacheReadInputTokens data)))
      (Some (match Raw.byModel data with
             | Some models => fold_left (scaleModel filteredCostRatio) models []
             | None => []
             end))
      (Some (fst filtered)).

(** *** parser.js: calculateSummary *)

Definition calculateSummary (data : Raw.t num) : Summary.t num :=
  let totalInputTokens := num_or0 (Raw.totalInputTokens data) in
  let totalOutputTokens := num_or0 (Raw.totalOutputTokens data) in
  let totalCacheCreation := num_or0 (Raw.totalCacheCreationInputTokens data) in
  let totalCacheRead := num_or0 (Raw.totalCacheReadInputTokens data) in
  let totalTokens :=
    js_add (js_add (js_add totalInputTokens totalOutputTokens) totalCacheCreation)
           totalCacheRead in
  let totalCost := num_or0 (Raw.totalCost data) in
  let byDay := match Raw.byDay data with Some o => o | None => [] end in
  let days := obj_keys byDay in
  let periodDays := match List.length days with O => 1%nat | n => n end in
  let dailyAverage :=
    DailyAverage.mk (Math_round (js_div totalTokens (js_nat periodDays)))
                    (js_div totalCost (js_nat periodDays)) in
  Summary.mk totalTokens totalInputTokens totalOutputTokens totalCacheCreation
             totalCacheRead totalCost dailyAverage periodDays.

(** *** parser.js: getModelBreakdown *)

(** [array.sort(compare)]: a stable sort; [x] is placed after every [y]
    with [compare(x, y) > 0]. *)
Fixpoint sortInsert {A : Type} (compare : A -> A -> num) (x : A) (l : list A) : list A :=
  match l with
  | [] => [x]
  | y :: l' =>
      if js_gt0 (compare x y) then y :: sortInsert compare x l'
      else x :: y :: l'
  end.

Definition Array_sort {A : Type} (compare : A -> A -> num) (l : list A) : list A :=
  fold_right (sortInsert compare) [] l.

Definition modelEntry (totalCost : num) (entry : string * ModelStats.t num)
  : ModelEntry.t num :=
  let (name, stats) := entry in
  ModelEntry.mk name (shortenModelName name)
    (num_or0 (ModelStats.cost stats))
    (num_or0 (ModelStats.inputTokens stats))
    (num_or0 (ModelStats.outputTokens stats))
    (calculatePercentage (num_or0 (ModelStats.cost stats)) totalCost 0).

Definition getModelBreakdown (data : Raw.t num) : list (ModelEntry.t num) :=
  let byModel := match Raw.byModel data with Some o => o | None => [] end in
  let totalCost := num_or0 (Raw.totalCost data) in
  let models := map (modelEntry totalCost) byModel in
  Array_sort (fun a b => js_sub (ModelEntry.cost b) (ModelEntry.cost a)) models.

(** *** parser.js: validateData *)

Definition typeof (v : value num) : string :=
  match v with
  | VUndefined => "undefined"
  | VNull => "object"
  | VBoolean _ => "boolean"
  | VNumber _ => "number"
  | VString _ => "string"
  | VFunction => "function"
  | VArray _ => "object"
  | VObject _ => "object"
  end.

(** ToBoolean *)
Definition truthy (v : value num) : bool :=
  match v with
  | VUndefined => false
  | VNull => false
  | VBoolean b => b
  | VNumber n => negb (js_falsy n)
  | VString s => negb (String.eqb s "")
  | VFunction => true
  | VArray _ => true
  | VObject _ => true
  end.

Definition Array_isArray (v : value num) : bool :=
  match v with
  | VArray _ => true
  | _ => false
  end.

(** [v.key] for a key that is neither an index nor [length]. *)
Definition prop (v : value num) (key : string) : value num :=
  match v with
  | VObject properties =>
      match obj_get key properties with
      | Some x => x
      | None => VUndefined
      end
  | _ => VUndefined
  end.

(** [if (failing) errors.push(message)] *)
Definition check (failing : bool) (message : string) (errors : list string)
  : list string :=
  if failing then errors ++ [message] else errors.

Definition validateData (data : value num) : Validation.t :=
  let errors := [] in
  if negb (truthy data) || negb (String.eqb (typeof data) "object") then
    let errors := errors ++ ["Data must be an object"] in
    Validation.mk false errors
  else
    let isCcusageFormat :=
      Array_isArray (prop data "daily") || truthy (prop data "totals") in
    let errors :=
      if isCcusageFormat then
        let errors :=
          check (truthy (prop data "daily") && negb (Array_isArray (prop data "daily")))
                "daily must be an array" errors in
        let errors :=
          check (truthy (prop data "totals")
                 && negb (String.eqb (typeof (prop data "totals")) "object"))
                "totals must be an object" errors in
        errors
      else
        let errors :=
          check (negb (String.eqb (typeof (prop data "totalCost")) "number"))
                "totalCost must be a number" errors in
        let errors :=
          check (truthy (prop data "byModel")
                 && negb (String.eqb (typeof (prop data "byModel")) "object"))
                "byModel must be an object" errors in
        let errors :=
          check (truthy (prop data "byDay")
                 && negb (String.eqb (typeof (prop data "byDay")) "object"))
                "byDay must be an object" errors in
        errors in
    Validation.mk (Nat.eqb (List.length errors) 0) errors.

End Parser.

(** ** Notions of the specification *)

Section Notions.

Context {num : Type} {N : JSNumber num}.

Variable Date_parse : string -> option Z.

(** The entries of a mapping, none when the field is absent. *)
Definition entriesOf {S : Type} (o : option (obj S)) : obj S :=
  match o with Some es => es | None => [] end.

Definition dayEntries (data : Raw.t num) : obj (DayStats.t num) :=
  entriesOf (Raw.byDay data).

Definition modelEntries (data : Raw.t num) : obj (ModelStats.t num) :=
  entriesOf (Raw.byModel data).

(** The window of [n] UTC days that ends with the day of [now]:
    [[start 00:00:00.000, end 23:59:59.999]], start being [n - 1] days
    before the current day. *)
Definition inWindow (now : Z) (n : Z) (date : string) : bool :=
  match Date_parse date with
  | Some d =>
      ((startOfUTCDay now - (n - 1) * msPerDay <=? d)
       && (d <=? startOfUTCDay now + 86399999))%Z
  | None => false
  end.

(** The period tags that name a window, with the length of the window. *)
Definition windows : list (string * Z) :=
  [("day", 1%Z); ("week", 7%Z); ("month", 30%Z)].

(** The sum of the [cost] fields of a sequence of daily entries, in
    sequence order.  As everywhere in parser.js a cost is read as
    [cost || 0]: an absent cost (or NaN) counts for 0. *)
Definition sumOfCosts (entries : obj (DayStats.t num)) : num :=
  fold_left (fun acc e => js_add acc (num_or0 (DayStats.cost (snd e))))
            entries (js_nat 0).

(** The ratio by which [filterByPeriod] scales the original figures. *)
Definition costRatio (filteredTotalCost : num) (originalTotalCost : option num) : num :=
  match originalTotalCost with
  | Some c => if js_falsy c then js_div filteredTotalCost (js_nat 1)
              else js_div filteredTotalCost c
  | None => js_div filteredTotalCost (js_nat 1)
  end.


(** The sum of a sequence of numbers, added from 0 in sequence order. *)
Definition sumInOrder (xs : list num) : num := fold_left js_add xs (js_nat 0).

(** The five scalar totals of a record. *)
Definition scalarTotals (data : Raw.t num)
  : option num * option num * option num * option num * option num :=
  (Raw.totalCost data, Raw.totalInputTokens data, Raw.totalOutputTokens data,
   Raw.totalCacheCreationInputTokens data, Raw.totalCacheReadInputTokens data).

Definition lookupModel (key : string) (data : Raw.t num) : option (ModelStats.t num) :=
  obj_get key (modelEntries data).

Definition lookupDay (key : string) (data : Raw.t num) : option (DayStats.t num) :=
  obj_get key (dayEntries data).

(** The statistics that a sequence of entries holds for [key]. *)
Definition contributions {S : Type} (key : string) (entries : obj S) : list S :=
  map snd (filter (fun e => String.eqb key (fst e)) entries).

(** The statistics of a key after a merging loop: what the key held
    before (or the zero entry) plus, in order, the contributions [cs]; the
    key stays as it was when nothing is contributed. *)
Definition mergedStats {S : Type} (zero : S) (add : S -> S -> S)
  (prior : option S) (cs : list S) : option S :=
  match cs with
  | [] => prior
  | _ => Some (fold_left add cs (match prior with Some c => c | None => zero end))
  end.

(** What the loops of [mergeUsageData] build from the empty object:
    distinct keys, statistics with every field present. *)
Definition mergedObj {S : Type} (complete : S -> Prop) (m : obj S) : Prop :=
  obj_wf m /\ Forall (fun e => complete (snd e)) m.

Definition completeModel (s : ModelStats.t num) : Prop :=
  exists c i o, s = ModelStats.mk (Some c) (Some i) (Some o).

Definition completeDay (s : DayStats.t num) : Prop :=
  exists c t, s = DayStats.mk (Some c) (Some t).

(** A record as [mergeUsageData] builds it from two or more sources. *)
Definition mergedRecord (data : Raw.t num) : Prop :=
  exists c i o cc cr bm bd,
    data = Raw.mk (Some c) (Some i) (Some o) (Some cc) (Some cr) (Some bm) (Some bd)
    /\ mergedObj completeModel bm /\ mergedObj completeDay bd.

End Notions.

(** [if (failing) errors.push(message)], as the list of what is pushed. *)
Definition failing (b : bool) (message : string) : list string :=
  if b then [message] else [].


(** The record in which every field is absent, [{}]. *)
Definition emptyRecord (num : Type) : Raw.t num :=
  Raw.mk None None None None None None None.

(** [|x - y| < tol] on doubles. *)
Definition closeTo (x y tol : float) : bool :=
  PrimFloat.ltb (PrimFloat.abs (PrimFloat.sub x y)) tol.

(** ** Scenarios *)

#[local] Set Warnings "-inexact-float".

(** 2025-01-14T12:00:00.000Z *)
Definition noon_2025_01_14 : Z := 1736856000000%Z.

Definition day50 : DayStats.t float :=
  DayStats.mk (Some 50%float) (Some 500000%float).

(** The data set of the filter tests: six days at 50 each, of which four
    (today, 1, 2 and 4 days ago) lie in the week that ends on 2025-01-14;
    one model that carries the whole original cost of 300. *)
Definition sixDays : Raw.t float :=
  Raw.mk (Some 300%float) (Some 3000000%float) (Some 1500000%float)
    (Some 0%float) (Some 0%float)
    (Some [("claude-sonnet-4-20250514",
            ModelStats.mk (Some 300%float) (Some 3000000%float) (Some 1500000%float))])
    (Some [("2025-01-14", day50); ("2025-01-13", day50); ("2025-01-12", day50);
           ("2025-01-10", day50); ("2025-01-04", day50); ("2024-12-05", day50)]).


(** A record whose single model costs more than [totalCost]. *)
Definition overTotal : Raw.t float :=
  Raw.mk (Some 100%float) (Some 1000%float) (Some 500%float) (Some 0%float) (Some 0%float)
    (Some [("claude-opus-4-20250514",
            ModelStats.mk (Some 300%float) (Some 1000%float) (Some 500%float))])
    (Some []).

(** A source with a [totalCost] and no tokens, models or days. *)
Definition costOnly (c : float) : Raw.t float :=
  Raw.mk (Some c) (Some 0%float) (Some 0%float) (Some 0%float) (Some 0%float)
         (Some []) (Some []).

(** The sample of the parser tests in exact arithmetic: 847.23 split into
    520.15 and 327.08. *)
Definition sampleExact : Raw.t Qc :=
  Raw.mk (Some (Q2Qc (84723 # 100)))
    (Some (Exact.of_Z 45000000)) (Some (Exact.of_Z 12000000))
    (Some (Exact.of_Z 5000000)) (Some (Exact.of_Z 63000000))
    (Some [("claude-sonnet-4-20250514",
            ModelStats.mk (Some (Q2Qc (52015 # 100)))
              (Some (Exact.of_Z 30000000)) (Some (Exact.of_Z 8000000)));
           ("claude-opus-4-20250514",
            ModelStats.mk (Some (Q2Qc (32708 # 100)))
              (Some (Exact.of_Z 15000000)) (Some (Exact.of_Z 4000000)))])
    (Some []).

(** Three sources in exact arithmetic, two of them sharing a day and a model. *)
Definition sourceExact (c : Z) (model date : string) : Raw.t Qc :=
  Raw.mk (Some (Exact.of_Z c)) (Some (Exact.of_Z (1000 * c))) (Some (Exact.of_Z (500 * c)))
    (Some (Exact.of_Z 0)) (Some (Exact.of_Z 0))
    (Some [(model, ModelStats.mk (Some (Exact.of_Z c)) (Some (Exact.of_Z (1000 * c)))
                                 (Some (Exact.of_Z (500 * c))))])
    (Some [(date, DayStats.mk (Some (Exact.of_Z c)) (Some (Exact.of_Z (1500 * c))))]).



(** ** More of parser.js: getDailyUsage, getTopModel, processData,
    transformCcusageFormat *)

Module DailyUsage.
Record t (num : Type) : Type := mk {
  date : string;
  tokens : num;
  cost : num
}.
End DailyUsage.

Module Processed.
Record t (num : Type) : Type := mk {
  summary : Summary.t num;
  models : list (ModelEntry.t num);
  dailyUsage : list (DailyUsage.t num);
  raw : Raw.t num;
  period : string
}.
End Processed.

(** The ccusage format: [daily[]] with per-day model breakdowns, [totals{}]. *)
Module ModelBreakdown.
Record t (num : Type) : Type := mk {
  modelName : string;
  cost : option num;
  inputTokens : option num;
  outputTokens : option num
}.
End ModelBreakdown.

Module DailyRecord.
Record t (num : Type) : Type := mk {
  date : string;
  totalCost : option num;
  totalTokens : option num;
  modelBreakdowns : option (list (ModelBreakdown.t num))
}.
End DailyRecord.

Module Totals.
Record t (num : Type) : Type := mk {
  totalCost : option num;
  inputTokens : option num;
  outputTokens : option num;
  cacheCreationTokens : option num;
  cacheReadTokens : option num
}.
End Totals.

(** What [transformCcusageFormat] may receive: an object that carries the
    fields of the internal format, those of the ccusage format, or both. *)
Module UsageInput.
Record t (num : Type) : Type := mk {
  internal : Raw.t num;
  daily : option (list (DailyRecord.t num));
  totals : option (Totals.t num)
}.
End UsageInput.

Section MoreParser.

Context {num : Type} {N : JSNumber num}.

Variable Date_parse : string -> option Z.

Variable shortenModelName : string -> string.

(** [array.sort(compare)] again, the test [compare(x, y) > 0] being given
    as [after x y]: [x] is placed after every [y] with [after x y]. *)
Fixpoint sortInsertBy {A : Type} (after : A -> A -> bool) (x : A) (l : list A) : list A :=
  match l with
  | [] => [x]
  | y :: l' =>
      if after x y then y :: sortInsertBy after x l'
      else x :: y :: l'
  end.

Definition Array_sortBy {A : Type} (after : A -> A -> bool) (l : list A) : list A :=
  fold_right (sortInsertBy after) [] l.

Definition dailyUsageEntry (entry : string * DayStats.t num) : DailyUsage.t num :=
  let (date, stats) := entry in
  DailyUsage.mk date (num_or0 (DayStats.tokens stats)) (num_or0 (DayStats.cost stats)).

(** [new Date(b.date) - new Date(a.date) > 0]: [b] is later than [a].  The
    difference of two time values has the sign of their difference as
    integers; with an Invalid Date it is NaN, which is not positive. *)
Definition laterDate (a b : DailyUsage.t num) : bool :=
  match Date_parse (DailyUsage.date a), Date_parse (DailyUsage.date b) with
  | Some ta, Some tb => (0 <? tb - ta)%Z
  | _, _ => false
  end.

(** [days] is [null] ([None]) or an integer. *)
Definition getDailyUsage (data : Raw.t num) (days : option Z) : list (DailyUsage.t num) :=
  let byDay := match Raw.byDay data with Some o => o | None => [] end in
  let dailyUsage := map dailyUsageEntry byDay in
  let dailyUsage := Array_sortBy laterDate dailyUsage in
  match days with
  | Some d =>
      if (negb (d =? 0) && (0 <? d))%Z then firstn (Z.to_nat d) dailyUsage
      else dailyUsage
  | None => dailyUsage
  end.



(** The body of the loop over [day.modelBreakdowns]. *)
Definition transformModel (byModel : obj (ModelStats.t num)) (model : ModelBreakdown.t num)
  : obj (ModelStats.t num) :=
  mergeEntry zeroModelStats addModelStats byModel
    (ModelBreakdown.modelName model,
     ModelStats.mk (ModelBreakdown.cost model) (ModelBreakdown.inputTokens model)
                   (ModelBreakdown.outputTokens model)).

(** The body of the loop over [daily]; the state is [(byDay, byModel)]. *)
Definition transformDay (state : obj (DayStats.t num) * obj (ModelStats.t num))
  (day : DailyRecord.t num) : obj (DayStats.t num) * obj (ModelStats.t num) :=
  let (byDay, byModel) := state in
  let byDay :=
    obj_set (DailyRecord.date day)
      (DayStats.mk (Some (num_or0 (DailyRecord.totalCost day)))
                   (Some (num_or0 (DailyRecord.totalTokens day))))
      byDay in
  let byModel :=
    match DailyRecord.modelBreakdowns day with
    | Some models => fold_left transformModel models byModel
    | None => byModel
    end in
  (byDay, byModel).

Definition transformCcusageFormat (rawData : UsageInput.t num) : Raw.t num :=
  match Raw.totalCost (UsageInput.internal rawData), UsageInput.daily rawData with
  | Some _, None => UsageInput.internal rawData
  | _, _ =>
      let daily := match UsageInput.daily rawData with Some d => d | None => [] end in
      let totalsField (field : Totals.t num -> option num) : num :=
        match UsageInput.totals rawData with
        | Some totals => num_or0 (field totals)
        | None => js_nat 0
        end in
      let (byDay, byModel) := fold_left transformDay daily ([], []) in
      Raw.mk (Some (totalsField (@Totals.totalCost num)))
             (Some (totalsField (@Totals.inputTokens num)))
             (Some (totalsField (@Totals.outputTokens num)))
             (Some (totalsField (@Totals.cacheCreationTokens num)))
             (Some (totalsField (@Totals.cacheReadTokens num)))
             (Some byModel) (Some byDay)
  end.

End MoreParser.

(** ** utils.js: escapeXml.  updater.js: findMarkers, insertContent,
    updateReadme, hasMarkers, addMarkers

    A string is the list of its code units. *)

Definition lit (s : string) : list ascii := list_ascii_of_string s.

(** [s.replace(/c/g, replacement)] for a replacement without [$]. *)
Definition replaceAll (c : ascii) (replacement : list ascii) (s : list ascii) : list ascii :=
  flat_map (fun a => if Ascii.eqb a c then replacement else [a]) s.

Definition quot : ascii := ascii_of_nat 34.
Definition apos : ascii := ascii_of_nat 39.
Definition newline : ascii := ascii_of_nat 10.

(** [escapeXml] on a string (another value is returned as [String(str)]). *)
Definition escapeXml (str : list ascii) : list ascii :=
  replaceAll apos (lit "&#39;")
    (replaceAll quot (lit "&quot;")
       (replaceAll ">"%char (lit "&gt;")
          (replaceAll "<"%char (lit "&lt;")
             (replaceAll "&"%char (lit "&amp;") str)))).

Definition START_MARKER : list ascii := lit "<!-- VIBE-DASHBOARD:START -->".
Definition END_MARKER : list ascii := lit "<!-- VIBE-DASHBOARD:END -->".

Fixpoint startsWith (needle s : list ascii) : bool :=
  match needle, s with
  | [], _ => true
  | a :: needle', b :: s' => Ascii.eqb a b && startsWith needle' s'
  | _ :: _, [] => false
  end.

(** [s.indexOf(needle)], [None] for -1. *)
Fixpoint indexOf (needle s : list ascii) : option nat :=
  if startsWith needle s then Some 0%nat
  else
    match s with
    | [] => None
    | _ :: s' => option_map S (indexOf needle s')
    end.

Module Markers.
Record t : Type := mk {
  start : nat;
  startEnd : nat;
  stop : nat;        (* the field [end] *)
  stopEnd : nat      (* the field [endEnd] *)
}.
End Markers.

Definition findMarkers (content : list ascii) : option Markers.t :=
  match indexOf START_MARKER content, indexOf END_MARKER content with
  | Some startIndex, Some endIndex =>
      if (endIndex <=? startIndex)%nat then None
      else
        Some (Markers.mk startIndex (startIndex + List.length START_MARKER)
                         endIndex (endIndex + List.length END_MARKER))
  | _, _ => None
  end.

Module InsertResult.
Record t : Type := mk {
  success : bool;
  content : list ascii;
  message : list ascii
}.
End InsertResult.

(** What updateReadme and addMarkers return: [content] is present only
    when updateReadme hands on a failed result of insertContent. *)
Module UpdateResult.
Record t : Type := mk {
  success : bool;
  content : option (list ascii);
  message : list ascii
}.
End UpdateResult.

Definition insertContent (original newContent : list ascii) : InsertResult.t :=
  match findMarkers original with
  | None =>
      InsertResult.mk false original
        (lit "Markers not found. Please add the following markers to your README:"
         ++ [newline; newline] ++ START_MARKER ++ [newline] ++ END_MARKER)
  | Some markers =>
      let before := firstn (Markers.startEnd markers) original in
      let after := skipn (Markers.stop markers) original in
      let updated := before ++ [newline] ++ newContent ++ [newline] ++ after in
      InsertResult.mk true updated (lit "Content inserted successfully")
  end.

(** The files that exist, by path.  [readFile] fails with ENOENT on a path
    that holds no file; other failures of the file system are not modelled. *)
Definition FileSystem : Type := string -> option (list ascii).

Definition writeFile (fs : FileSystem) (path : string) (data : list ascii) : FileSystem :=
  fun p => if String.eqb p path then Some data else fs p.

Definition updateReadme (fs : FileSystem) (readmePath : string) (content : list ascii)
  : FileSystem * UpdateResult.t :=
  match fs readmePath with
  | None =>
      (fs, UpdateResult.mk false None (lit "File not found: " ++ lit readmePath))
  | Some original =>
      let result := insertContent original content in
      if negb (InsertResult.success result) then
        (fs, UpdateResult.mk (InsertResult.success result)
               (Some (InsertResult.content result)) (InsertResult.message result))
      else
        (writeFile fs readmePath (InsertResult.content result),
         UpdateResult.mk true None (lit "README updated successfully"))
  end.

Definition hasMarkers (fs : FileSystem) (readmePath : string) : bool :=
  match fs readmePath with
  | None => false
  | Some content =>
      match findMarkers content with Some _ => true | None => false end
  end.

Definition addMarkers (fs : FileSystem) (readmePath : string)
  : FileSystem * UpdateResult.t :=
  match fs readmePath with
  | None =>
      (fs, UpdateResult.mk false None (lit "File not found: " ++ lit readmePath))
  | Some content =>
      match findMarkers content with
      | Some _ => (fs, UpdateResult.mk true None (lit "Markers already exist"))
      | None =>
          let markersBlock :=
            [newline; newline] ++ START_MARKER ++ [newline] ++ END_MARKER ++ [newline] in
          let updated := content ++ markersBlock in
          (writeFile fs readmePath updated,
           UpdateResult.mk true None (lit "Markers added to README"))
      end
  end.

(** ** Further notions *)

(** The comparator [b - a] orders consistently: when [y - x > 0],
    [x - y > 0] does not hold.  Doubles and rationals both satisfy it. *)
Class SignAsym {num : Type} (N : JSNumber num) : Prop := {
  js_sub_gt0_asym :
    forall x y : num, js_gt0 (js_sub y x) = true -> js_gt0 (js_sub x y) = false
}.

(** The time value of the date of a daily entry (0 for an Invalid Date). *)
Definition timeOf {num : Type} (Date_parse : string -> option Z) (e : DailyUsage.t num) : Z :=
  match Date_parse (DailyUsage.date e) with Some t => t | None => 0%Z end.

(** No entry is out of order for the comparator of getModelBreakdown:
    for [a] placed before [b], [b.cost - a.cost > 0] does not hold. *)
Definition costNotBelow {num : Type} {N : JSNumber num} (a b : ModelEntry.t num) : Prop :=
  js_gt0 (js_sub (ModelEntry.cost b) (ModelEntry.cost a)) = false.

(** What [escapeXml] makes of one character. *)
Definition escapeChar (c : ascii) : list ascii :=
  if Ascii.eqb c "&" then lit "&amp;"
  else if Ascii.eqb c "<" then lit "&lt;"
  else if Ascii.eqb c ">" then lit "&gt;"
  else if Ascii.eqb c quot then lit "&quot;"
  else if Ascii.eqb c apos then lit "&#39;"
  else [c].

(** The characters that [escapeXml] replaces. *)
Definition special (c : ascii) : bool :=
  Ascii.eqb c "&" || Ascii.eqb c "<" || Ascii.eqb c ">"
  || Ascii.eqb c quot || Ascii.eqb c apos.

(** [needle] occurs in [s]. *)
Definition includes (needle s : list ascii) : bool :=
  match indexOf needle s with Some _ => true | None => false end.

(** The entry that [transformCcusageFormat] stores for a day of [daily]. *)
Definition dayRecordEntry {num : Type} {N : JSNumber num} (day : DailyRecord.t num)
  : string * DayStats.t num :=
  (DailyRecord.date day,
   DayStats.mk (Some (num_or0 (DailyRecord.totalCost day)))
               (Some (num_or0 (DailyRecord.totalTokens day)))).

(** The model breakdowns of all days, in order, as entries. *)
Definition breakdownEntries {num : Type} (daily : list (DailyRecord.t num))
  : obj (ModelStats.t num) :=
  flat_map
    (fun day =>
       map (fun model =>
              (ModelBreakdown.modelName model,
               ModelStats.mk (ModelBreakdown.cost model) (ModelBreakdown.inputTokens model)
                             (ModelBreakdown.outputTokens model)))
           (match DailyRecord.modelBreakdowns day with Some ms => ms | None => [] end))
    daily.

(** The last element of a sequence. *)
Definition lastOf {A : Type} (l : list A) : option A :=
  match rev l with
  | [] => None
  | x :: _ => Some x
  end.

(** [(rawData.totals || {}).field || 0] *)
Definition totalOf {num : Type} {N : JSNumber num} (totals : option (Totals.t num))
  (field : Totals.t num -> option num) : num :=
  match totals with
  | Some t => num_or0 (field t)
  | None => js_nat 0
  end.

(** The days of a ccusage input, none when [daily] is absent. *)
Definition dailyOf {num : Type} (rawData : UsageInput.t num) : list (DailyRecord.t num) :=
  match UsageInput.daily rawData with Some d => d | None => [] end.

(** A record of the internal format as an input of [transformCcusageFormat]:
    it has no [daily] and no [totals]. *)
Definition asInput {num : Type} (data : Raw.t num) : UsageInput.t num :=
  UsageInput.mk data None None.

(** A ccusage input that lists 2025-01-13 twice. *)
Definition ccusageSample : UsageInput.t float :=
  UsageInput.mk (emptyRecord float)
    (Some [DailyRecord.mk "2025-01-13" (Some 10%float) (Some 1000%float)
             (Some [ModelBreakdown.mk "opus" (Some 6%float) (Some 100%float) (Some 50%float);
                    ModelBreakdown.mk "sonnet" (Some 4%float) (Some 80%float) (Some 40%float)]);
           DailyRecord.mk "2025-01-14" (Some 20%float) (Some 2000%float)
             (Some [ModelBreakdown.mk "opus" (Some 20%float) (Some 300%float) None]);
           DailyRecord.mk "2025-01-13" (Some 30%float) None None])
    (Some (Totals.mk (Some 60%float) (Some 480%float) (Some 90%float) None None)).






(** ** Keys and the prototype chain

    The objects of parser.js are created by [{}] literals and inherit from
    [Object.prototype].  An assignment [o[key] = v] creates or replaces an
    own entry for every key but ["__proto__"], on which it sets the
    prototype of [o] instead; a test [!o[key]] reads through the prototype
    chain and finds a (truthy) inherited member at each name of
    [Object.prototype].  [obj_set] and [obj_get] model own entries, which
    is what the code does at every other key: the results that depend on
    it assume the keys below. *)

(** [Object.getOwnPropertyNames(Object.prototype)] *)
Definition Object_prototype_names : list string :=
  ["constructor"; "__defineGetter__"; "__defineSetter__"; "hasOwnProperty";
   "__lookupGetter__"; "__lookupSetter__"; "isPrototypeOf"; "propertyIsEnumerable";
   "toString"; "valueOf"; "__proto__"; "toLocaleString"].

(** A key at which an object literal inherits nothing. *)
Definition ownKey (key : string) : bool :=
  negb (existsb (String.eqb key) Object_prototype_names).

Definition ownKeys {V : Type} (o : obj V) : Prop :=
  forall key, In key (obj_keys o) -> ownKey key = true.

(** The keys of both mappings of a record are pairwise distinct and none
    is a name of [Object.prototype]. *)
Definition plainKeys {num : Type} (data : Raw.t num) : Prop :=
  (obj_wf (modelEntries data) /\ ownKeys (modelEntries data)) /\
  (obj_wf (dayEntries data) /\ ownKeys (dayEntries data)).

#[local] Set Warnings "-inexact-float".

(** A record whose [totalCost] of 3 is not the sum 1.5 of its daily costs,
    and which has no [totalCacheReadInputTokens]. *)
Definition unreconciled : Raw.t float :=
  Raw.mk (Some 3%float) (Some 10%float) (Some 20%float) (Some 5%float) None
    (Some [("claude-opus-4-20250514",
            ModelStats.mk (Some 3%float) (Some 10%float) (Some 20%float))])
    (Some [("2025-01-14", DayStats.mk (Some 1%float) (Some 100%float));
           ("2024-06-01", DayStats.mk (Some 0.5%float) (Some 100%float))]).

(** A record with three days and no token total but the input tokens. *)
Definition threeDays : Raw.t float :=
  Raw.mk (Some 1%float) (Some 10%float) None None None None
    (Some [("2025-01-12", day50); ("2025-01-13", day50); ("2025-01-14", day50)]).

(** A source on doubles with one model and one day. *)
Definition sourceOf (c : float) (model date : string) : Raw.t float :=
  Raw.mk (Some c) (Some (1000 * c)%float) (Some (500 * c)%float)
    (Some 0%float) (Some 0%float)
    (Some [(model, ModelStats.mk (Some c) (Some (1000 * c)%float) (Some (500 * c)%float))])
    (Some [(date, DayStats.mk (Some c) (Some (1500 * c)%float))]).


(** ** Sums of doubles

    The laws of [+] that merging rests on and that doubles satisfy:
    addition commutes, and 0 is a left identity on every number that is
    not falsy and on 0 itself.  (NaN is a left-absorbing exception only in
    that [NaN || 0] is 0; addition of doubles is not associative.) *)
Class SumLaws {num : Type} (N : JSNumber num) : Prop := {
  js_add_commutes : forall x y : num, js_add x y = js_add y x;
  js_add_zero_truthy : forall x : num, js_falsy x = false -> js_add (js_nat 0) x = x;
  js_add_zero_zero : js_add (js_nat 0) (js_nat 0) = js_nat 0
}.










(** ** Shares and percentages on doubles *)

(** [(value / total) * 100], what [calculatePercentage] rounds. *)
Definition share {num : Type} {N : JSNumber num} (value total : num) : num :=
  js_mul (js_div value total) (js_nat 100).

(** The number that a finite double stands for, [m * 2^e] with its sign
    (and 0 for the zeros, the infinities and NaN). *)
Definition exactValue (x : float) : Q :=
  match Prim2SF x with
  | S754_finite s m e =>
      let sm := if s then Zneg m else Zpos m in
      if (0 <=? e)%Z then inject_Z (sm * 2 ^ e)
      else Qmake sm (Z.to_pos (2 ^ (- e)))
  | _ => 0%Q
  end.

(** The sum of a sequence of rationals. *)
Definition sumQ (l : list Q) : Q := fold_right Qplus 0%Q l.

(** A record of [totalCost] 200 split into 115 and 85. *)
Definition twoModels : Raw.t float :=
  Raw.mk (Some 200%float) (Some 0%float) (Some 0%float) (Some 0%float) (Some 0%float)
    (Some [("claude-opus-4-20250514",
            ModelStats.mk (Some 115%float) (Some 0%float) (Some 0%float));
           ("claude-sonnet-4-20250514",
            ModelStats.mk (Some 85%float) (Some 0%float) (Some 0%float))])
    (Some []).
(** ** Facts about objects *)

Unset Implicit Arguments.

Section ObjectFacts.

Variable V : Type.

Lemma obj_set_new (k : string) (v : V) (o : obj V) :
  ~ In k (obj_keys o) -> obj_set k v o = o ++ [(k, v)].
Proof.
  induction o as [|[k' v'] o IH]; simpl; intros Hk.
  - reflexivity.
  - destruct (String.eqb_spec k k') as [->|Hne].
    + exfalso. apply Hk. now left.
    + rewrite IH; [reflexivity|]. intros Hin. apply Hk. now right.
Qed.

Lemma obj_get_set (k k' : string) (v : V) (o : obj V) :
  obj_get k (obj_set k' v o) = if String.eqb k k' then Some v else obj_get k o.
Proof.
  induction o as [|[k0 v0] o IH]; simpl.
  - reflexivity.
  - destruct (String.eqb_spec k' k0) as [->|Hne]; simpl.
    + destruct (String.eqb k k0); reflexivity.
    + rewrite IH. destruct (String.eqb_spec k k0) as [->|Hne'].
      * destruct (String.eqb_spec k0 k') as [->|_]; [congruence|reflexivity].
      * reflexivity.
Qed.

Lemma obj_keys_set (k : string) (v : V) (o : obj V) :
  obj_keys (obj_set k v o) =
  if existsb (String.eqb k) (obj_keys o) then obj_keys o else obj_keys o ++ [k].
Proof.
  induction o as [|[k0 v0] o IH]; simpl.
  - reflexivity.
  - destruct (String.eqb_spec k k0) as [->|Hne]; simpl.
    + reflexivity.
    + rewrite IH. destruct (existsb (String.eqb k) (obj_keys o)); reflexivity.
Qed.

Lemma obj_get_none (k : string) (o : obj V) :
  obj_get k o = None <-> ~ In k (obj_keys o).
Proof.
  induction o as [|[k0 v0] o IH]; simpl.
  - tauto.
  - destruct (String.eqb_spec k k0) as [->|Hne].
    + split; [discriminate|]. intros H. exfalso. apply H. now left.
    + rewrite IH. split; intros H; [intros [E|E]; [congruence|tauto]|tauto].
Qed.

Lemma obj_wf_set (k : string) (v : V) (o : obj V) :
  obj_wf o -> obj_wf (obj_set k v o).
Proof.
  unfold obj_wf. intros Hwf. rewrite obj_keys_set.
  destruct (existsb (String.eqb k) (obj_keys o)) eqn:E; [exact Hwf|].
  assert (Hk : ~ In k (obj_keys o)).
  { intros Hin. assert (existsb (String.eqb k) (obj_keys o) = true) as E'.
    { apply existsb_exists. exists k. split; [exact Hin|apply String.eqb_refl]. }
    congruence. }
  apply (NoDup_Add (a := k) (l := obj_keys o)).
  - rewrite <- (app_nil_r (obj_keys o)) at 1. apply Add_app.
  - split; assumption.
Qed.


End ObjectFacts.


(** A fold of a right-commutative step does not depend on the order. *)
Lemma fold_left_permutation (A B : Type) (f : A -> B -> A) :
  (forall a x y, f (f a x) y = f (f a y) x) ->
  forall l l', Permutation l l' -> forall a, fold_left f l a = fold_left f l' a.
Proof.
  intros Hf l l' Hp. induction Hp; intros a; simpl.
  - reflexivity.
  - apply IHHp.
  - now rewrite Hf.
  - now rewrite IHHp1.
Qed.

(** ** The period filter *)

Section FilterFacts.

Context {num : Type} {N : JSNumber num}.

Variable Date_parse : string -> option Z.

Lemma obj_get_In (V : Type) (k : string) (v : V) (o : obj V) :
  obj_wf o -> In (k, v) o -> obj_get k o = Some v.
Proof.
  unfold obj_wf. induction o as [|[k0 v0] o IH]; simpl; intros Hwf Hin.
  - contradiction.
  - apply NoDup_cons_iff in Hwf. destruct Hwf as [Hk Hwf].
    destruct Hin as [E|Hin].
    + inversion E; subst. now rewrite String.eqb_refl.
    + destruct (String.eqb_spec k k0) as [->|_].
      * exfalso. apply Hk. apply (in_map fst) in Hin. exact Hin.
      * now apply IH.
Qed.

(** The loop over the daily entries keeps the entries in range, in order,
    and adds their costs to the running total. *)
Lemma filterDay_fold (range : PeriodRange.t) (entries acc : obj (DayStats.t num)) (t : num) :
  NoDup (obj_keys acc ++ obj_keys entries) ->
  fold_left (filterDay Date_parse range) entries (acc, t) =
  (acc ++ filter (fun e => isDateInRange Date_parse (fst e) range) entries,
   fold_left (fun a e => js_add a (num_or0 (DayStats.cost (snd e))))
     (filter (fun e => isDateInRange Date_parse (fst e) range) entries) t).
Proof.
  revert acc t. induction entries as [|[date stats] entries IH]; simpl; intros acc t Hnd.
  - now rewrite app_nil_r.
  - assert (Hrest : NoDup (obj_keys acc ++ obj_keys entries))
      by (eapply NoDup_remove_1; exact Hnd).
    destruct (isDateInRange Date_parse date range) eqn:Hin; simpl.
    + assert (Hk : ~ In date (obj_keys acc)).
      { apply NoDup_remove_2 in Hnd. intros H. apply Hnd, in_or_app. now left. }
      rewrite obj_set_new by exact Hk. rewrite IH.
      * now rewrite <- app_assoc.
      * unfold obj_keys in *. rewrite map_app, <- app_assoc. exact Hnd.
    + apply IH. exact Hrest.
Qed.

Lemma filterDays_spec (range : PeriodRange.t) (data : Raw.t num) :
  obj_wf (dayEntries data) ->
  filterDays Date_parse range (Raw.byDay data) =
  (filter (fun e => isDateInRange Date_parse (fst e) range) (dayEntries data),
   sumOfCosts (filter (fun e => isDateInRange Date_parse (fst e) range) (dayEntries data))).
Proof.
  unfold filterDays, dayEntries, sumOfCosts, obj_wf.
  destruct (Raw.byDay data) as [entries|]; intros Hwf.
  - now rewrite filterDay_fold.
  - reflexivity.
Qed.

(** For the three named periods the range of [getPeriodRange] is the
    window of 1, 7 or 30 days of the specification. *)
Lemma isDateInRange_window (now : Z) (period : string) (n : Z) (date : string) :
  In (period, n) windows ->
  isDateInRange Date_parse date (getPeriodRange period now) =
  inWindow Date_parse now n date.
Proof.
  unfold windows, isDateInRange, inWindow.
  intros [E|[E|[E|[]]]]; inversion E; subst; simpl;
    destruct (Date_parse date) as [d|]; try reflexivity;
    unfold endOfUTCDay, minusUTCDays; f_equal; f_equal; lia.
Qed.


Lemma num_or1_ratio (f : num) (c : option num) :
  js_div f (num_or (js_nat 1) c) = costRatio f c.
Proof.
  unfold num_or, costRatio. destruct c as [c|]; [destruct (js_falsy c)|]; reflexivity.
Qed.

(** What [filterByPeriod] returns for any tag other than ['all'], in terms
    of the outcome of the loop over the daily entries. *)
Lemma filterByPeriod_other (now : Z) (data : Raw.t num) (period : string) :
  String.eqb period "all" = false ->
  let filtered := filterDays Date_parse (getPeriodRange period now) (Raw.byDay data) in
  let ratio := costRatio (snd filtered) (Raw.totalCost data) in
  filterByPeriod Date_parse now data period =
  Raw.mk (Some (snd filtered))
    (Some (Math_round (js_mul (num_or0 (Raw.totalInputTokens data)) ratio)))
    (Some (Math_round (js_mul (num_or0 (Raw.totalOutputTokens data)) ratio)))
    (Some (Math_round (js_mul (num_or0 (Raw.totalCacheCreationInputTokens data)) ratio)))
    (Some (Math_round (js_mul (num_or0 (Raw.totalCacheReadInputTokens data)) ratio)))
    (Some (fold_left (scaleModel ratio) (modelEntries data) []))
    (Some (fst filtered)).
Proof.
  intros Hp. unfold filterByPeriod. rewrite Hp. cbv zeta.
  rewrite num_or1_ratio. unfold scaleTokens, modelEntries.
  destruct (Raw.byModel data); reflexivity.
Qed.


End FilterFacts.

Section FilterClaims.

Context {num : Type} {N : JSNumber num}.

Variable Date_parse : string -> option Z.

(** C4.  Filtering by ['all'] returns the input record itself: the same
    five scalar totals and the same [byModel] and [byDay] mappings. *)
Theorem filterByPeriod_all (now : Z) (data : Raw.t num) :
  filterByPeriod Date_parse now data "all" = data.
Proof. reflexivity. Qed.

(** C1.  Filter conservation.  For the period tags day, week and month
    (windows of 1, 7 and 30 UTC days ending today), the [totalCost] of the
    filtered record is the sum of the costs of the daily entries whose date
    lies in the window, and the filtered [byDay] consists of exactly those
    entries, each with the statistics it had in the input. *)
Theorem filter_conservation (now : Z) (data : Raw.t num) (period : string) (n : Z) :
  In (period, n) windows ->
  obj_wf (dayEntries data) ->
  let included := filter (fun e => inWindow Date_parse now n (fst e)) (dayEntries data) in
  let filtered := filterByPeriod Date_parse now data period in
  Raw.totalCost filtered = Some (sumOfCosts included) /\
  Raw.byDay filtered = Some included /\
  (forall date stats, In (date, stats) included -> lookupDay date filtered = Some stats).
Proof.
  intros Hp Hwf included filtered.
  assert (Hall : String.eqb period "all" = false).
  { destruct Hp as [E|[E|[E|[]]]]; inversion E; reflexivity. }
  assert (Hincl : filter (fun e => isDateInRange Date_parse (fst e) (getPeriodRange period now))
                    (dayEntries data) = included).
  { apply filter_ext. intros e. now apply isDateInRange_window. }
  unfold filtered. rewrite (filterByPeriod_other Date_parse now data period Hall).
  rewrite (filterDays_spec Date_parse _ data Hwf), Hincl. simpl.
  repeat split.
  intros date stats Hin. unfold lookupDay, dayEntries. simpl.
  apply obj_get_In; [|exact Hin].
  unfold included, obj_wf, obj_keys.
  clear - Hwf. unfold obj_wf, obj_keys in Hwf.
  induction (dayEntries data) as [|e l IH]; simpl; [constructor|].
  apply NoDup_cons_iff in Hwf. destruct Hwf as [Hk Hwf].
  destruct (inWindow Date_parse now n (fst e)); simpl; [|now apply IH].
  constructor; [|now apply IH].
  intros Hin. apply Hk. apply in_map_iff in Hin. destruct Hin as [x [Hx Hin]].
  apply filter_In in Hin. apply in_map_iff. exists x. tauto.
Qed.



End FilterClaims.

(** The week filter on the six-day data set. *)
Lemma filter_conservation_witness :
  In ("week", 7%Z) windows /\
  obj_wf (dayEntries sixDays) /\
  Raw.totalCost (filterByPeriod Date_parse_iso noon_2025_01_14 sixDays "week") =
    Some (sumOfCosts (filter (fun e => inWindow Date_parse_iso noon_2025_01_14 7 (fst e))
                        (dayEntries sixDays))) /\
  sumOfCosts (filter (fun e => inWindow Date_parse_iso noon_2025_01_14 7 (fst e))
                (dayEntries sixDays)) = 200%float.
Proof.
  assert (Hw : In ("week", 7%Z) windows) by (simpl; tauto).
  assert (Hwf : obj_wf (dayEntries sixDays)).
  { unfold obj_wf. simpl. repeat constructor; simpl; intuition discriminate. }
  split; [exact Hw|]. split; [exact Hwf|]. split.
  - exact (proj1 (filter_conservation Date_parse_iso noon_2025_01_14 sixDays "week" 7 Hw Hwf)).
  - vm_compute. reflexivity.
Defined.




(** C6 (amended).  Filtering the six-day data set by week keeps four of
    the six days and yields a [totalCost] of 200; the model entry of
    original cost 300, against the original [totalCost] of 300, is scaled
    by the ratio 200/300 to 300 * (200/300), which is 200. *)
Theorem week_scenario :
  List.length (dayEntries sixDays) = 6%nat /\
  List.length (dayEntries (filterByPeriod Date_parse_iso noon_2025_01_14 sixDays "week")) = 4%nat /\
  Raw.totalCost (filterByPeriod Date_parse_iso noon_2025_01_14 sixDays "week") = Some 200%float /\
  option_map (@ModelStats.cost float)
    (lookupModel "claude-sonnet-4-20250514"
       (filterByPeriod Date_parse_iso noon_2025_01_14 sixDays "week")) =
    Some (Some (300 * (200 / 300))%float) /\
  (300 * (200 / 300))%float = 200%float.
Proof.
  repeat split; vm_compute; reflexivity.
Qed.

(** C6 (as stated) fails: the scaled model cost is not within a cent of
    200 * (200/300) = 133.33. *)
Lemma week_scenario_model_cost_not_133 :
  ~ exists stats c,
      lookupModel "claude-sonnet-4-20250514"
        (filterByPeriod Date_parse_iso noon_2025_01_14 sixDays "week") = Some stats /\
      ModelStats.cost stats = Some c /\
      closeTo c (200 * (200 / 300))%float 0.01%float = true.
Proof.
  intros [stats [c [Hs [Hc Hclose]]]].
  vm_compute in Hs. injection Hs as <-.
  simpl in Hc. injection Hc as <-.
  vm_compute in Hclose. discriminate Hclose.
Qed.

(** ** Merging *)

Lemma Permutation_app3_rev (A : Type) (a b c : list A) :
  Permutation (a ++ b ++ c) (c ++ b ++ a).
Proof.
  transitivity ((b ++ c) ++ a); [apply Permutation_app_comm|].
  rewrite (app_assoc c b a).
  apply Permutation_app_tail, Permutation_app_comm.
Qed.

Section MergeEntryFacts.

Variable S : Type.
Variable zero : S.
Variable add : S -> S -> S.

Lemma mergeEntries_some (m : obj S) (o : option (obj S)) :
  mergeEntries zero add (Some m) o =
  Some (fold_left (mergeEntry zero add) (entriesOf o) m).
Proof. destruct o; reflexivity. Qed.

(** After a loop over [es], the statistics of a key are the statistics it
    had before (or the zero entry) plus, in order, those that [es] holds
    for the key. *)
Lemma mergeEntry_fold_get (k : string) (es m : obj S) :
  obj_get k (fold_left (mergeEntry zero add) es m) =
  mergedStats zero add (obj_get k m) (contributions k es).
Proof.
  revert m. induction es as [|[k' s] es IH]; intros m.
  - reflexivity.
  - simpl fold_left. rewrite IH. unfold mergeEntry. rewrite obj_get_set.
    unfold mergedStats, contributions. simpl.
    destruct (String.eqb_spec k k') as [->|Hne]; simpl.
    + destruct (map snd (filter (fun e => String.eqb k' (fst e)) es)); reflexivity.
    + reflexivity.
Qed.

Lemma contributions_app (k : string) (es es' : obj S) :
  contributions k (es ++ es') = contributions k es ++ contributions k es'.
Proof. unfold contributions. now rewrite filter_app, map_app. Qed.

(** The statistics of a key do not depend on the order of the
    contributions when adding is right-commutative. *)
Lemma merged_get_permutation (cs cs' : list S) (prior : option S) :
  (forall a x y, add (add a x) y = add (add a y) x) ->
  Permutation cs cs' ->
  mergedStats zero add prior cs = mergedStats zero add prior cs'.
Proof.
  intros Hadd Hp. unfold mergedStats.
  destruct cs as [|c cs].
  - apply Permutation_nil in Hp. now subst.
  - destruct cs' as [|c' cs'].
    + apply Permutation_sym, Permutation_nil in Hp. discriminate.
    + f_equal. now apply fold_left_permutation.
Qed.

(** The statistics of a key after three sources were merged, in either
    direction. *)
Lemma merge3_get (k : string) (oa ob oc : option (obj S)) :
  obj_get k (entriesOf
    (mergeEntries zero add (mergeEntries zero add (mergeEntries zero add (Some []) oa) ob) oc)) =
  mergedStats zero add None
    (contributions k (entriesOf oa ++ entriesOf ob ++ entriesOf oc)).
Proof.
  rewrite !mergeEntries_some. simpl entriesOf.
  rewrite <- !fold_left_app.
  now rewrite mergeEntry_fold_get.
Qed.

Lemma merge3_get_rev (k : string) (oa ob oc : option (obj S)) :
  (forall a x y, add (add a x) y = add (add a y) x) ->
  obj_get k (entriesOf
    (mergeEntries zero add (mergeEntries zero add (mergeEntries zero add (Some []) oa) ob) oc)) =
  obj_get k (entriesOf
    (mergeEntries zero add (mergeEntries zero add (mergeEntries zero add (Some []) oc) ob) oa)).
Proof.
  intros Hadd. rewrite !merge3_get.
  apply merged_get_permutation; [exact Hadd|].
  rewrite !contributions_app. apply Permutation_app3_rev.
Qed.

Variable complete : S -> Prop.
Hypothesis complete_zero : complete zero.
Hypothesis complete_add : forall c s, complete c -> complete (add c s).
Hypothesis add_zero : forall s, complete s -> add zero s = s.

Lemma Forall_obj_set (k : string) (v : S) (m : obj S) :
  complete v -> Forall (fun e => complete (snd e)) m ->
  Forall (fun e => complete (snd e)) (obj_set k v m).
Proof.
  intros Hv Hm. induction Hm as [|[k0 v0] m H0 Hm IH]; simpl.
  - now constructor.
  - destruct (String.eqb k k0); constructor; assumption.
Qed.

Lemma mergedObj_mergeEntry (m : obj S) (e : string * S) :
  mergedObj complete m -> mergedObj complete (mergeEntry zero add m e).
Proof.
  intros [Hwf Hall]. destruct e as [k s]. unfold mergeEntry. split.
  - now apply obj_wf_set.
  - apply Forall_obj_set; [|exact Hall].
    apply complete_add. destruct (obj_get k m) as [c|] eqn:Hget; [|exact complete_zero].
    clear - Hall Hget. induction Hall as [|[k0 v0] m H0 Hm IH]; simpl in Hget.
    + discriminate.
    + destruct (String.eqb k k0); [now inversion Hget; subst|now apply IH].
Qed.

Lemma mergedObj_fold (es m : obj S) :
  mergedObj complete m -> mergedObj complete (fold_left (mergeEntry zero add) es m).
Proof.
  revert m. induction es as [|e es IH]; simpl; intros m Hm.
  - exact Hm.
  - apply IH. now apply mergedObj_mergeEntry.
Qed.


End MergeEntryFacts.

Section MergeClaims.

Context {num : Type} {N : JSNumber num}.

(** C3.  Merge identity.  Merging a single-element sequence returns that
    element; merging the empty sequence returns the record with a
    [totalCost] of 0, four token totals of 0 and empty [byModel] and
    [byDay] mappings. *)
Theorem merge_identity (data : Raw.t num) :
  mergeUsageData [data] = data /\
  mergeUsageData (@nil (Raw.t num)) =
    Raw.mk (Some (js_nat 0)) (Some (js_nat 0)) (Some (js_nat 0)) (Some (js_nat 0))
           (Some (js_nat 0)) (Some []) (Some []).
Proof. split; reflexivity. Qed.

Lemma completeModel_add (c s : ModelStats.t num) :
  completeModel c -> completeModel (addModelStats c s).
Proof.
  intros [x [y [z ->]]]. unfold addModelStats. simpl. red. eauto.
Qed.

Lemma completeDay_add (c s : DayStats.t num) :
  completeDay c -> completeDay (addDayStats c s).
Proof.
  intros [x [y ->]]. unfold addDayStats. simpl. red. eauto.
Qed.

Lemma mergedRecord_empty : mergedRecord (@emptyUsage num N).
Proof.
  unfold mergedRecord, emptyUsage. do 7 eexists. split; [reflexivity|].
  split; split; constructor.
Qed.

Lemma mergedRecord_mergeOne (merged data : Raw.t num) :
  mergedRecord merged -> mergedRecord (mergeOne merged data).
Proof.
  intros [c [i [o [cc [cr [bm [bd [-> [Hm Hd]]]]]]]]].
  unfold mergedRecord, mergeOne. cbn -[mergeEntries].
  rewrite !mergeEntries_some.
  do 7 eexists. split; [reflexivity|]. split.
  - apply mergedObj_fold; [|apply completeModel_add|exact Hm].
    red. unfold zeroModelStats. eauto.
  - apply mergedObj_fold; [|apply completeDay_add|exact Hd].
    red. unfold zeroDayStats. eauto.
Qed.



Lemma contributions_nil (S : Type) (key : string) (es : obj S) :
  contributions key es = [] <-> ~ In key (obj_keys es).
Proof.
  unfold contributions, obj_keys. induction es as [|[k s] es IH]; simpl.
  - tauto.
  - destruct (String.eqb_spec key k) as [->|Hne]; simpl.
    + split; [discriminate|]. intros H. exfalso. apply H. now left.
    + rewrite IH. split; intros H; [intros [E|E]; [congruence|tauto]|tauto].
Qed.

(** What an object holds for a key is its one contribution. *)
Lemma contributions_wf (S : Type) (key : string) (es : obj S) :
  obj_wf es ->
  contributions key es = match obj_get key es with Some s => [s] | None => [] end.
Proof.
  unfold obj_wf. induction es as [|[k s] es IH]; intros Hwf; [reflexivity|].
  simpl in Hwf. apply NoDup_cons_iff in Hwf. destruct Hwf as [Hk Hwf].
  unfold contributions in *. simpl.
  destruct (String.eqb_spec key k) as [->|Hne]; simpl.
  - f_equal. now apply (contributions_nil S k es).
  - now apply IH.
Qed.


Section SumLawsMerge.

Context {L : SumLaws N}.

Lemma js_add_zero_or0 (o : option num) :
  js_add (js_nat 0) (num_or0 o) = num_or0 o.
Proof.
  unfold num_or0, num_or. destruct o as [x|]; [|apply js_add_zero_zero].
  destruct (js_falsy x) eqn:E; [apply js_add_zero_zero|now apply js_add_zero_truthy].
Qed.

Lemma sum2_swap (o1 o2 : option num) :
  js_add (js_add (js_nat 0) (num_or0 o1)) (num_or0 o2) =
  js_add (js_add (js_nat 0) (num_or0 o2)) (num_or0 o1).
Proof. rewrite !js_add_zero_or0. apply js_add_commutes. Qed.






Lemma addModelStats_swap (x y : ModelStats.t num) :
  addModelStats (addModelStats zeroModelStats x) y =
  addModelStats (addModelStats zeroModelStats y) x.
Proof.
  unfold addModelStats, zeroModelStats, plus_assign.
  cbn [ModelStats.cost ModelStats.inputTokens ModelStats.outputTokens].
  now rewrite (sum2_swap (ModelStats.cost x)), (sum2_swap (ModelStats.inputTokens x)),
              (sum2_swap (ModelStats.outputTokens x)).
Qed.

Lemma addDayStats_swap (x y : DayStats.t num) :
  addDayStats (addDayStats zeroDayStats x) y =
  addDayStats (addDayStats zeroDayStats y) x.
Proof.
  unfold addDayStats, zeroDayStats, plus_assign. cbn [DayStats.cost DayStats.tokens].
  now rewrite (sum2_swap (DayStats.cost x)), (sum2_swap (DayStats.tokens x)).
Qed.




End SumLawsMerge.

End MergeClaims.

(** *** The laws on doubles and on rationals *)

Lemma SFadd_comm (x y : spec_float) : SFadd prec emax x y = SFadd prec emax y x.
Proof.
  destruct x as [sx|sx| |sx mx ex]; destruct y as [sy|sy| |sy my ey];
    try reflexivity; try (destruct sx, sy; reflexivity).
  unfold SFadd. rewrite (Z.min_comm ey ex). f_equal. apply Z.add_comm.
Qed.

(** A double that is not falsy is an infinity or a finite number other
    than zero. *)
Lemma Binary64_truthy (x : float) :
  Binary64.falsy x = false ->
  (exists s, Prim2SF x = S754_infinity s) \/
  (exists s m e, Prim2SF x = S754_finite s m e).
Proof.
  unfold Binary64.falsy, PrimFloat.is_zero, PrimFloat.is_nan.
  rewrite !FloatAxioms.eqb_spec.
  change (Prim2SF PrimFloat.zero) with (S754_zero false).
  destruct (Prim2SF x) as [s|s| |s m e] eqn:E.
  - destruct s; discriminate.
  - intros _. left. eauto.
  - cbn. discriminate.
  - intros _. right. eauto.
Qed.

Lemma Binary64_sums : SumLaws Binary64.number.
Proof.
  constructor; cbn [js_add js_nat js_falsy Binary64.number].
  - intros x y. apply Prim2SF_inj. rewrite !FloatAxioms.add_spec. apply SFadd_comm.
  - intros x H. apply Prim2SF_inj. rewrite FloatAxioms.add_spec.
    change (Prim2SF (Binary64.of_Z (Z.of_nat 0))) with (S754_zero false).
    destruct (Binary64_truthy x H) as [[s ->]|[s [m [e ->]]]]; reflexivity.
  - reflexivity.
Qed.

Lemma Exact_sums : SumLaws Exact.number.
Proof.
  constructor; cbn [js_add js_nat js_falsy Exact.number].
  - apply Qcplus_comm.
  - intros x _. apply Qcplus_0_l.
  - apply Qcplus_0_l.
Qed.


Ltac solve_plainKeys :=
  repeat split;
  try (unfold obj_wf; simpl; repeat constructor; simpl; intuition discriminate);
  try (intros key Hin; simpl in Hin;
       repeat (destruct Hin as [<-|Hin]; [reflexivity|]); contradiction).



(** ** Summary and validation *)

Section SummaryFacts.

Context {num : Type} {N : JSNumber num}.

Lemma calculateSummary_fields (data : Raw.t num) :
  Summary.totalTokens (calculateSummary data) =
    js_add (js_add (js_add (num_or0 (Raw.totalInputTokens data))
                           (num_or0 (Raw.totalOutputTokens data)))
                   (num_or0 (Raw.totalCacheCreationInputTokens data)))
           (num_or0 (Raw.totalCacheReadInputTokens data)) /\
  Summary.totalCost (calculateSummary data) = num_or0 (Raw.totalCost data) /\
  (List.length (obj_keys (dayEntries data)) = 0%nat ->
     Summary.periodDays (calculateSummary data) = 1%nat) /\
  (List.length (obj_keys (dayEntries data)) <> 0%nat ->
     Summary.periodDays (calculateSummary data) =
     List.length (obj_keys (dayEntries data))) /\
  DailyAverage.tokens (Summary.dailyAverage (calculateSummary data)) =
    Math_round (js_div (Summary.totalTokens (calculateSummary data))
                       (js_nat (Summary.periodDays (calculateSummary data)))) /\
  DailyAverage.cost (Summary.dailyAverage (calculateSummary data)) =
    js_div (num_or0 (Raw.totalCost data))
           (js_nat (Summary.periodDays (calculateSummary data))).
Proof.
  unfold calculateSummary, dayEntries, entriesOf. cbn.
  repeat split.
  - intros H. now rewrite H.
  - intros H. destruct (Datatypes.length (obj_keys _)); [contradiction|reflexivity].
Qed.

(** Every error of an object input is the message of a failing check, and
    every failing check of the format that applies leaves its message. *)
Lemma validateData_object (data : value num) :
  truthy data = true -> typeof data = "object" ->
  let isCcusageFormat :=
    Array_isArray (prop data "daily") || truthy (prop data "totals") in
  Validation.errors (validateData data) =
    (if isCcusageFormat then
       failing (truthy (prop data "daily") && negb (Array_isArray (prop data "daily")))
               "daily must be an array"
       ++ failing (truthy (prop data "totals")
                   && negb (String.eqb (typeof (prop data "totals")) "object"))
                  "totals must be an object"
     else
       failing (negb (String.eqb (typeof (prop data "totalCost")) "number"))
               "totalCost must be a number"
       ++ failing (truthy (prop data "byModel")
                   && negb (String.eqb (typeof (prop data "byModel")) "object"))
                  "byModel must be an object"
       ++ failing (truthy (prop data "byDay")
                   && negb (String.eqb (typeof (prop data "byDay")) "object"))
                  "byDay must be an object") /\
  Validation.isValid (validateData data) =
    Nat.eqb (List.length (Validation.errors (validateData data))) 0.
Proof.
  intros Ht Hty. unfold validateData. rewrite Ht, Hty. cbn [negb String.eqb orb].
  change (String.eqb "object" "object") with true. cbn [negb orb].
  destruct (Array_isArray (prop data "daily") || truthy (prop data "totals")).
  - unfold check, failing. cbn.
    destruct (truthy (prop data "daily") && negb (Array_isArray (prop data "daily")));
    destruct (truthy (prop data "totals")
              && negb (String.eqb (typeof (prop data "totals")) "object"));
    split; reflexivity.
  - unfold check, failing. cbn.
    destruct (negb (String.eqb (typeof (prop data "totalCost")) "number"));
    destruct (truthy (prop data "byModel")
              && negb (String.eqb (typeof (prop data "byModel")) "object"));
    destruct (truthy (prop data "byDay")
              && negb (String.eqb (typeof (prop data "byDay")) "object"));
    split; reflexivity.
Qed.

Lemma validateData_non_object (data : value num) :
  data = VNull \/ typeof data <> "object" ->
  validateData data = Validation.mk false ["Data must be an object"].
Proof.
  intros [->|Hty]; [reflexivity|].
  unfold validateData.
  destruct data; cbn; rewrite ?orb_true_r; try reflexivity;
    exfalso; apply Hty; reflexivity.
Qed.

End SummaryFacts.

(** C8.  The summary of any record, absent fields counting for 0: the
    total of the four token totals, the number of [byDay] keys or 1 when
    there is none, the rounded daily average of tokens and the unrounded
    daily average of cost.  The summary of the empty record has
    [totalTokens] 0, [totalCost] 0 and [periodDays] 1.  On doubles: the
    totals 10, 20, 5 and an absent one over two days give 35 tokens and the
    daily averages 18 (17.5 rounded) and 3 / 2 = 1.5; ten tokens and a cost
    of 1 over three days give the averages 3 and 0.3333333333333333. *)
Theorem summary_of_record :
  (forall (num : Type) (N : JSNumber num) (data : Raw.t num),
     let summary := calculateSummary data in
     let keys := List.length (obj_keys (dayEntries data)) in
     Summary.totalTokens summary =
       js_add (js_add (js_add (num_or0 (Raw.totalInputTokens data))
                              (num_or0 (Raw.totalOutputTokens data)))
                      (num_or0 (Raw.totalCacheCreationInputTokens data)))
              (num_or0 (Raw.totalCacheReadInputTokens data)) /\
     Summary.periodDays summary = (if Nat.eqb keys 0 then 1%nat else keys) /\
     DailyAverage.tokens (Summary.dailyAverage summary) =
       Math_round (js_div (Summary.totalTokens summary)
                          (js_nat (Summary.periodDays summary))) /\
     DailyAverage.cost (Summary.dailyAverage summary) =
       js_div (Summary.totalCost summary) (js_nat (Summary.periodDays summary)) /\
     Summary.totalCost summary = num_or0 (Raw.totalCost data)) /\
  (Summary.totalTokens (calculateSummary (emptyRecord float)) = 0%float /\
   Summary.totalCost (calculateSummary (emptyRecord float)) = 0%float /\
   Summary.periodDays (calculateSummary (emptyRecord float)) = 1%nat) /\
  (Summary.totalTokens (calculateSummary (emptyRecord Qc)) = Q2Qc 0 /\
   Summary.totalCost (calculateSummary (emptyRecord Qc)) = Q2Qc 0 /\
   Summary.periodDays (calculateSummary (emptyRecord Qc)) = 1%nat) /\
  calculateSummary unreconciled =
    Summary.mk 35%float 10%float 20%float 5%float 0%float 3%float
      (DailyAverage.mk 18%float 1.5%float) 2 /\
  calculateSummary threeDays =
    Summary.mk 10%float 10%float 0%float 0%float 0%float 1%float
      (DailyAverage.mk 3%float (1 / 3)%float) 3.
Proof.
  split; [|split; [|split; [|split]]; repeat split; vm_compute; reflexivity].
  intros num N data summary keys.
  destruct (calculateSummary_fields data) as [Htok [Hcost [Hzero [Hsome [Havg Hcavg]]]]].
  unfold summary. split; [exact Htok|]. split.
  - unfold keys. destruct (Nat.eqb_spec (List.length (obj_keys (dayEntries data))) 0) as [E|E].
    + now apply Hzero.
    + now apply Hsome.
  - split; [exact Havg|]. split; [|exact Hcost]. rewrite Hcost. exact Hcavg.
Qed.

(** C9.  A null or non-object input is invalid with the single error
    "Data must be an object" and no field is checked.  On an object every
    check of the applicable format that fails leaves its own message, so
    that an input of the internal format that fails the [totalCost] check
    and the [byModel] check (and passes the [byDay] check) has exactly
    those two errors; [{totalCost: "x"}] is invalid with the error
    "totalCost must be a number". *)
Theorem validateData_errors :
  forall (num : Type) (N : JSNumber num),
  (forall data : value num,
     data = VNull \/ typeof data <> "object" ->
     validateData data = Validation.mk false ["Data must be an object"]) /\
  (forall data : value num,
     truthy data = true -> typeof data = "object" ->
     Array_isArray (prop data "daily") || truthy (prop data "totals") = false ->
     Validation.errors (validateData data) =
       failing (negb (String.eqb (typeof (prop data "totalCost")) "number"))
               "totalCost must be a number"
       ++ failing (truthy (prop data "byModel")
                   && negb (String.eqb (typeof (prop data "byModel")) "object"))
                  "byModel must be an object"
       ++ failing (truthy (prop data "byDay")
                   && negb (String.eqb (typeof (prop data "byDay")) "object"))
                  "byDay must be an object") /\
  (forall data : value num,
     truthy data = true -> typeof data = "object" ->
     Array_isArray (prop data "daily") || truthy (prop data "totals") = true ->
     Validation.errors (validateData data) =
       failing (truthy (prop data "daily") && negb (Array_isArray (prop data "daily")))
               "daily must be an array"
       ++ failing (truthy (prop data "totals")
                   && negb (String.eqb (typeof (prop data "totals")) "object"))
                  "totals must be an object") /\
  (forall data : value num,
     truthy data = true -> typeof data = "object" ->
     Array_isArray (prop data "daily") || truthy (prop data "totals") = false ->
     typeof (prop data "totalCost") <> "number" ->
     truthy (prop data "byModel") = true -> typeof (prop data "byModel") <> "object" ->
     truthy (prop data "byDay") = false \/ typeof (prop data "byDay") = "object" ->
     validateData data =
       Validation.mk false ["totalCost must be a number"; "byModel must be an object"]) /\
  validateData (VObject [("totalCost", @VString num "x")]) =
    Validation.mk false ["totalCost must be a number"].
Proof.
  intros num N. split; [exact validateData_non_object|].
  split; [|split; [|split; [|reflexivity]]].
  - intros data Ht Hty Hfmt.
    destruct (validateData_object data Ht Hty) as [He _]. cbv zeta in He.
    now rewrite Hfmt in He.
  - intros data Ht Hty Hfmt.
    destruct (validateData_object data Ht Hty) as [He _]. cbv zeta in He.
    now rewrite Hfmt in He.
  - intros data Ht Hty Hfmt Hcost Hbm Hbmty Hbd.
    destruct (validateData_object data Ht Hty) as [He Hv]. cbv zeta in He.
    rewrite Hfmt in He.
    assert (E1 : String.eqb (typeof (prop data "totalCost")) "number" = false)
      by (now apply String.eqb_neq).
    assert (E2 : String.eqb (typeof (prop data "byModel")) "object" = false)
      by (now apply String.eqb_neq).
    assert (E3 : truthy (prop data "byDay")
                 && negb (String.eqb (typeof (prop data "byDay")) "object") = false).
    { destruct Hbd as [-> | ->]; [reflexivity|]. now rewrite andb_false_r. }
    rewrite E1, Hbm, E2, E3 in He. simpl in He.
    destruct (validateData data) as [valid errors]. simpl in *. subst. reflexivity.
Qed.

(** An object with a string for [totalCost] and for [byModel]. *)
Lemma validateData_errors_witness :
  validateData (VObject [("totalCost", @VString float "x"); ("byModel", VString "y")]) =
    Validation.mk false ["totalCost must be a number"; "byModel must be an object"].
Proof.
  apply (proj1 (proj2 (proj2 (proj2 (validateData_errors float Binary64.number)))));
    try reflexivity.
  - discriminate.
  - discriminate.
  - left. reflexivity.
Defined.

(** ** The model breakdown *)

Section BreakdownFacts.

Context {num : Type} {N : JSNumber num}.

Variable shortenModelName : string -> string.

Lemma sortInsert_permutation (A : Type) (compare : A -> A -> num) (x : A) (l : list A) :
  Permutation (sortInsert compare x l) (x :: l).
Proof.
  induction l as [|y l IH]; simpl.
  - apply Permutation_refl.
  - destruct (js_gt0 (compare x y)).
    + transitivity (y :: x :: l); [now apply perm_skip|apply perm_swap].
    + apply Permutation_refl.
Qed.

Lemma Array_sort_permutation (A : Type) (compare : A -> A -> num) (l : list A) :
  Permutation (Array_sort compare l) l.
Proof.
  unfold Array_sort. induction l as [|x l IH]; simpl.
  - apply perm_nil.
  - transitivity (x :: fold_right (sortInsert compare) [] l).
    + apply sortInsert_permutation.
    + now apply perm_skip.
Qed.

(** The breakdown holds one entry for each entry of [byModel]. *)
Lemma getModelBreakdown_permutation (data : Raw.t num) :
  Permutation (getModelBreakdown shortenModelName data)
    (map (modelEntry shortenModelName (num_or0 (Raw.totalCost data))) (modelEntries data)).
Proof. unfold getModelBreakdown. apply Array_sort_permutation. Qed.


End BreakdownFacts.

(** *** Rounding in exact arithmetic *)
















(** ** Further properties: period ranges and the period filter *)

(** X1.  For day, week and month the range of [getPeriodRange] starts at a
    UTC midnight, spans exactly 1, 7 or 30 whole days, holds the reference
    instant and ends less than a day after it, that is with the last
    millisecond of the UTC day of the reference instant, and reports that
    number of days. *)
Theorem period_range_whole_days (period : string) (n : Z) (referenceDate : Z) :
  In (period, n) windows ->
  exists startDate,
    PeriodRange.startDate (getPeriodRange period referenceDate) = Some startDate /\
    (startDate mod msPerDay = 0)%Z /\
    (PeriodRange.endDate (getPeriodRange period referenceDate)
       = startDate + n * msPerDay - 1)%Z /\
    (startDate <= referenceDate <= PeriodRange.endDate (getPeriodRange period referenceDate))%Z /\
    (referenceDate - msPerDay < PeriodRange.endDate (getPeriodRange period referenceDate))%Z /\
    (PeriodRange.endDate (getPeriodRange period referenceDate) - msPerDay < referenceDate)%Z /\
    ((PeriodRange.endDate (getPeriodRange period referenceDate) + 1) mod msPerDay = 0)%Z /\
    PeriodRange.days (getPeriodRange period referenceDate) = Some (Z.to_nat n).
Proof.
  assert (Hm : (0 < msPerDay)%Z) by reflexivity.
  pose proof (Z.mod_pos_bound referenceDate msPerDay Hm) as Hb.
  pose proof (Z.div_mod referenceDate msPerDay) as Hd.
  assert (Hmid : forall k, ((referenceDate / msPerDay * msPerDay - k * msPerDay) mod msPerDay = 0)%Z).
  { intros k. rewrite <- Z.mul_sub_distr_r. apply Z.mod_mul. discriminate. }
  unfold windows. intros [E|[E|[E|[]]]]; inversion E; subst; cbn [getPeriodRange String.eqb Ascii.eqb Bool.eqb];
    eexists; (split; [reflexivity|]);
    cbn [PeriodRange.startDate PeriodRange.endDate PeriodRange.days];
    unfold endOfUTCDay, minusUTCDays, startOfUTCDay.
  all: assert (Hend : ((referenceDate / msPerDay * msPerDay + 86399999 + 1) mod msPerDay = 0)%Z)
    by (replace (referenceDate / msPerDay * msPerDay + 86399999 + 1)%Z
          with ((referenceDate / msPerDay + 1) * msPerDay)%Z by (unfold msPerDay; lia);
        apply Z.mod_mul; discriminate).
  - split; [exact (eq_trans (f_equal (fun z => (z mod msPerDay)%Z) (eq_sym (Z.sub_0_r _))) (Hmid 0%Z))|].
    unfold msPerDay in *. repeat split; try lia; exact Hend.
  - split; [exact (Hmid 6%Z)|]. unfold msPerDay in *. repeat split; try lia; exact Hend.
  - split; [exact (Hmid 29%Z)|]. unfold msPerDay in *. repeat split; try lia; exact Hend.
Qed.

Lemma period_range_whole_days_witness :
  In ("week", 7%Z) windows /\
  PeriodRange.startDate (getPeriodRange "week" noon_2025_01_14) = Some 1736294400000%Z /\
  PeriodRange.endDate (getPeriodRange "week" noon_2025_01_14) = 1736899199999%Z /\
  exists startDate,
    PeriodRange.startDate (getPeriodRange "week" noon_2025_01_14) = Some startDate /\
    (PeriodRange.endDate (getPeriodRange "week" noon_2025_01_14)
       = startDate + 7 * msPerDay - 1)%Z.
Proof.
  assert (Hw : In ("week", 7%Z) windows) by (simpl; tauto).
  split; [exact Hw|]. split; [reflexivity|]. split; [reflexivity|].
  destruct (period_range_whole_days "week" 7 noon_2025_01_14 Hw)
    as [s [Hs [_ [He _]]]].
  exists s. split; assumption.
Defined.

Section PeriodExtras.

Context {num : Type} {N : JSNumber num}.

Variable Date_parse : string -> option Z.

Lemma filterByPeriod_dayEntries (now : Z) (data : Raw.t num) (period : string) :
  String.eqb period "all" = false ->
  obj_wf (dayEntries data) ->
  dayEntries (filterByPeriod Date_parse now data period) =
  filter (fun e => isDateInRange Date_parse (fst e) (getPeriodRange period now))
         (dayEntries data).
Proof.
  intros Hp Hwf. rewrite (filterByPeriod_other Date_parse now data period Hp).
  unfold dayEntries at 1. cbn [Raw.byDay entriesOf].
  now rewrite (filterDays_spec Date_parse _ data Hwf).
Qed.

Lemma isDateInRange_nested (now : Z) (date : string) :
  (isDateInRange Date_parse date (getPeriodRange "day" now) = true ->
   isDateInRange Date_parse date (getPeriodRange "week" now) = true) /\
  (isDateInRange Date_parse date (getPeriodRange "week" now) = true ->
   isDateInRange Date_parse date (getPeriodRange "month" now) = true).
Proof.
  unfold isDateInRange. cbn [getPeriodRange String.eqb Ascii.eqb Bool.eqb
    PeriodRange.startDate PeriodRange.endDate].
  destruct (Date_parse date) as [d|]; [|split; discriminate].
  unfold minusUTCDays, msPerDay.
  split; intros H; apply andb_true_iff in H; destruct H as [H1 H2];
    apply andb_true_iff; split; try exact H2;
    apply Z.leb_le in H1; apply Z.leb_le; lia.
Qed.

(** X2.  The ranges are nested: a date in today's range is in the range of
    the week, and a date in the range of the week is in that of the month;
    accordingly the days that the day filter keeps are among those the
    week filter keeps, these among those the month filter keeps, and these
    among the days of the input. *)
Theorem period_filters_nested (now : Z) (data : Raw.t num) :
  obj_wf (dayEntries data) ->
  (forall date,
     (isDateInRange Date_parse date (getPeriodRange "day" now) = true ->
      isDateInRange Date_parse date (getPeriodRange "week" now) = true) /\
     (isDateInRange Date_parse date (getPeriodRange "week" now) = true ->
      isDateInRange Date_parse date (getPeriodRange "month" now) = true)) /\
  incl (dayEntries (filterByPeriod Date_parse now data "day"))
       (dayEntries (filterByPeriod Date_parse now data "week")) /\
  incl (dayEntries (filterByPeriod Date_parse now data "week"))
       (dayEntries (filterByPeriod Date_parse now data "month")) /\
  incl (dayEntries (filterByPeriod Date_parse now data "month")) (dayEntries data).
Proof.
  intros Hwf. split; [intros date; apply isDateInRange_nested|].
  rewrite (filterByPeriod_dayEntries now data "day" eq_refl Hwf).
  rewrite (filterByPeriod_dayEntries now data "week" eq_refl Hwf).
  rewrite (filterByPeriod_dayEntries now data "month" eq_refl Hwf).
  repeat split; intros e He; apply filter_In in He; destruct He as [Hin Hr].
  - apply filter_In. split; [exact Hin|].
    now apply (proj1 (isDateInRange_nested now (fst e))).
  - apply filter_In. split; [exact Hin|].
    now apply (proj2 (isDateInRange_nested now (fst e))).
  - exact Hin.
Qed.




End PeriodExtras.

Ltac solve_obj_wf :=
  unfold obj_wf; simpl; repeat constructor; simpl; intuition discriminate.

Lemma period_filters_nested_witness :
  obj_wf (dayEntries sixDays) /\
  incl (dayEntries (filterByPeriod Date_parse_iso noon_2025_01_14 sixDays "day"))
       (dayEntries (filterByPeriod Date_parse_iso noon_2025_01_14 sixDays "week")).
Proof.
  assert (Hwf : obj_wf (dayEntries sixDays)) by solve_obj_wf.
  split; [exact Hwf|].
  exact (proj1 (proj2 (period_filters_nested Date_parse_iso noon_2025_01_14 sixDays Hwf))).
Defined.



(** *** Filtering twice *)






(** ** Further properties: merging any number of sources *)

Lemma Permutation_filter (A : Type) (f : A -> bool) (l l' : list A) :
  Permutation l l' -> Permutation (filter f l) (filter f l').
Proof.
  intros Hp. induction Hp; simpl.
  - apply perm_nil.
  - destruct (f x); [now apply perm_skip|assumption].
  - destruct (f x), (f y); try apply Permutation_refl. apply perm_swap.
  - now transitivity (filter f l').
Qed.

Section MergeExtras.

Context {num : Type} {N : JSNumber num}.

Lemma fold_plus_assign (xs : list num) (z : num) :
  fold_left plus_assign xs (Some z) = Some (fold_left js_add xs z).
Proof.
  revert z. induction xs as [|x xs IH]; intros z; simpl; [reflexivity|apply IH].
Qed.

Lemma fold_mergeEntries (S : Type) (zero : S) (add : S -> S -> S)
  (os : list (option (obj S))) (m : obj S) :
  fold_left (mergeEntries zero add) os (Some m) =
  Some (fold_left (mergeEntry zero add) (flat_map entriesOf os) m).
Proof.
  revert m. induction os as [|o os IH]; intros m; simpl; [reflexivity|].
  rewrite mergeEntries_some, IH, fold_left_app. reflexivity.
Qed.

(** The loop over [dataArray], field by field. *)
Lemma fold_mergeOne (l : list (Raw.t num)) (acc : Raw.t num) :
  fold_left mergeOne l acc =
  Raw.mk
    (fold_left plus_assign (map (fun d => num_or0 (Raw.totalCost d)) l) (Raw.totalCost acc))
    (fold_left plus_assign (map (fun d => num_or0 (Raw.totalInputTokens d)) l)
       (Raw.totalInputTokens acc))
    (fold_left plus_assign (map (fun d => num_or0 (Raw.totalOutputTokens d)) l)
       (Raw.totalOutputTokens acc))
    (fold_left plus_assign (map (fun d => num_or0 (Raw.totalCacheCreationInputTokens d)) l)
       (Raw.totalCacheCreationInputTokens acc))
    (fold_left plus_assign (map (fun d => num_or0 (Raw.totalCacheReadInputTokens d)) l)
       (Raw.totalCacheReadInputTokens acc))
    (fold_left (mergeEntries zeroModelStats addModelStats) (map (@Raw.byModel num) l)
       (Raw.byModel acc))
    (fold_left (mergeEntries zeroDayStats addDayStats) (map (@Raw.byDay num) l)
       (Raw.byDay acc)).
Proof.
  revert acc. induction l as [|d l IH]; intros acc.
  - destruct acc; reflexivity.
  - simpl fold_left. rewrite IH. reflexivity.
Qed.

Lemma mergeUsageData_fold (l : list (Raw.t num)) :
  List.length l <> 1%nat -> mergeUsageData l = fold_left mergeOne l emptyUsage.
Proof.
  destruct l as [|a [|b l]]; simpl; intros H; try reflexivity. contradiction.
Qed.

Lemma flat_map_entries (S : Type) (f : Raw.t num -> option (obj S)) (l : list (Raw.t num)) :
  flat_map entriesOf (map f l) = flat_map (fun d => entriesOf (f d)) l.
Proof. induction l as [|d l IH]; simpl; [reflexivity|now rewrite IH]. Qed.

(** The merge of zero, two or more sources, in full. *)
Lemma mergeUsageData_many (l : list (Raw.t num)) :
  List.length l <> 1%nat ->
  mergeUsageData l =
  Raw.mk
    (Some (sumInOrder (map (fun d => num_or0 (Raw.totalCost d)) l)))
    (Some (sumInOrder (map (fun d => num_or0 (Raw.totalInputTokens d)) l)))
    (Some (sumInOrder (map (fun d => num_or0 (Raw.totalOutputTokens d)) l)))
    (Some (sumInOrder (map (fun d => num_or0 (Raw.totalCacheCreationInputTokens d)) l)))
    (Some (sumInOrder (map (fun d => num_or0 (Raw.totalCacheReadInputTokens d)) l)))
    (Some (fold_left (mergeEntry zeroModelStats addModelStats) (flat_map modelEntries l) []))
    (Some (fold_left (mergeEntry zeroDayStats addDayStats) (flat_map dayEntries l) [])).
Proof.
  intros Hl. rewrite (mergeUsageData_fold l Hl), fold_mergeOne.
  unfold emptyUsage. cbn [Raw.totalCost Raw.totalInputTokens Raw.totalOutputTokens
    Raw.totalCacheCreationInputTokens Raw.totalCacheReadInputTokens Raw.byModel Raw.byDay].
  rewrite !fold_plus_assign, !fold_mergeEntries, !flat_map_entries. reflexivity.
Qed.

Lemma mergedRecord_fold (l : list (Raw.t num)) (acc : Raw.t num) :
  mergedRecord acc -> mergedRecord (fold_left mergeOne l acc).
Proof.
  revert acc. induction l as [|d l IH]; intros acc Hacc; simpl; [exact Hacc|].
  apply IH. now apply mergedRecord_mergeOne.
Qed.

(** X6.  Whatever the sources lack, the merge of zero, two or more sources
    is a full record: the five totals are present, [byModel] and [byDay]
    are mappings with pairwise distinct keys, and every entry has all its
    fields.  (A single source is returned as it is.) *)
Theorem merge_result_complete (dataArray : list (Raw.t num)) :
  List.length dataArray <> 1%nat ->
  exists c i o cc cr bm bd,
    mergeUsageData dataArray =
      Raw.mk (Some c) (Some i) (Some o) (Some cc) (Some cr) (Some bm) (Some bd) /\
    obj_wf bm /\ Forall (fun e => completeModel (snd e)) bm /\
    obj_wf bd /\ Forall (fun e => completeDay (snd e)) bd.
Proof.
  intros Hl. rewrite (mergeUsageData_fold dataArray Hl).
  destruct (mergedRecord_fold dataArray emptyUsage mergedRecord_empty)
    as [c [i [o [cc [cr [bm [bd [H [[Hwm Hcm] [Hwd Hcd]]]]]]]]]].
  exists c, i, o, cc, cr, bm, bd. repeat split; assumption.
Qed.

Lemma mergedStats_none (S : Type) (zero : S) (add : S -> S -> S) (cs : list S) :
  mergedStats zero add None cs = None <-> cs = [].
Proof. destruct cs; simpl; split; intros H; try reflexivity; discriminate. Qed.


End MergeExtras.

(** X8.  Two sources merge to the same totals and the same statistics in
    either order, on doubles as for every addition that commutes and has
    0 as left identity; the keys of the sources are pairwise distinct and
    no names of [Object.prototype].  (With three sources the order can
    show in the last digit of a sum of doubles.) *)
Theorem merge_two_commutes {num : Type} {N : JSNumber num} (L : SumLaws N)
  (A B : Raw.t num) :
  plainKeys A -> plainKeys B ->
  scalarTotals (mergeUsageData [A; B]) = scalarTotals (mergeUsageData [B; A]) /\
  (forall key, lookupModel key (mergeUsageData [A; B]) =
               lookupModel key (mergeUsageData [B; A])) /\
  (forall key, lookupDay key (mergeUsageData [A; B]) =
               lookupDay key (mergeUsageData [B; A])).
Proof.
  intros [[HmA _] [HdA _]] [[HmB _] [HdB _]].
  assert (HAB : List.length [A; B] <> 1%nat) by (simpl; lia).
  assert (HBA : List.length [B; A] <> 1%nat) by (simpl; lia).
  rewrite (mergeUsageData_many [A; B] HAB), (mergeUsageData_many [B; A] HBA).
  split; [|split]; [|intros key|intros key].
  - unfold scalarTotals, sumInOrder.
    cbn [Raw.totalCost Raw.totalInputTokens Raw.totalOutputTokens
         Raw.totalCacheCreationInputTokens Raw.totalCacheReadInputTokens map fold_left].
    now rewrite (sum2_swap (Raw.totalCost A)), (sum2_swap (Raw.totalInputTokens A)),
                (sum2_swap (Raw.totalOutputTokens A)),
                (sum2_swap (Raw.totalCacheCreationInputTokens A)),
                (sum2_swap (Raw.totalCacheReadInputTokens A)).
  - unfold lookupModel, modelEntries at 1 3. cbn [Raw.byModel entriesOf].
    rewrite !mergeEntry_fold_get. cbn [obj_get flat_map]. rewrite !app_nil_r.
    rewrite !contributions_app.
    rewrite (contributions_wf _ key (modelEntries A) HmA),
            (contributions_wf _ key (modelEntries B) HmB).
    destruct (obj_get key (modelEntries A)); destruct (obj_get key (modelEntries B));
      cbn; try reflexivity. f_equal. apply addModelStats_swap.
  - unfold lookupDay, dayEntries at 1 3. cbn [Raw.byDay entriesOf].
    rewrite !mergeEntry_fold_get. cbn [obj_get flat_map]. rewrite !app_nil_r.
    rewrite !contributions_app.
    rewrite (contributions_wf _ key (dayEntries A) HdA),
            (contributions_wf _ key (dayEntries B) HdB).
    destruct (obj_get key (dayEntries A)); destruct (obj_get key (dayEntries B));
      cbn; try reflexivity. f_equal. apply addDayStats_swap.
Qed.

(** X9.  The number of days of the summary of a merge is the number of
    distinct dates of the sources (a date that several sources share
    counts once), and 1 when the sources hold no day at all. *)
Theorem merged_period_days {num : Type} {N : JSNumber num}
  (dataArray : list (Raw.t num)) :
  List.length dataArray <> 1%nat ->
  Summary.periodDays (calculateSummary (mergeUsageData dataArray)) =
  Nat.max 1 (List.length (nodup string_dec (obj_keys (flat_map dayEntries dataArray)))).
Proof.
  intros Hl. rewrite (mergeUsageData_many dataArray Hl).
  unfold calculateSummary. cbn [Summary.periodDays Raw.byDay].
  set (es := flat_map dayEntries dataArray).
  set (merged := fold_left (mergeEntry zeroDayStats addDayStats) es []).
  assert (Hperm : Permutation (obj_keys merged) (nodup string_dec (obj_keys es))).
  { apply NoDup_Permutation.
    - assert (Hm : mergedObj (fun _ : DayStats.t num => True) merged).
      { apply mergedObj_fold; try (intros; exact I).
        split; constructor. }
      exact (proj1 Hm).
    - apply NoDup_nodup.
    - intros k. rewrite nodup_In.
      destruct (obj_get k merged) eqn:Hget.
      + split; intros _.
        * unfold merged in Hget. rewrite mergeEntry_fold_get in Hget. cbn [obj_get] in Hget.
          destruct (in_dec string_dec k (obj_keys es)) as [Hin|Hout]; [exact Hin|].
          apply contributions_nil in Hout. rewrite Hout in Hget. discriminate.
        * destruct (in_dec string_dec k (obj_keys merged)) as [Hin|Hout]; [exact Hin|].
          apply obj_get_none in Hout. congruence.
      + split; intros Hin.
        * apply obj_get_none in Hget. contradiction.
        * exfalso. unfold merged in Hget. rewrite mergeEntry_fold_get in Hget.
          cbn [obj_get] in Hget. apply mergedStats_none in Hget.
          apply contributions_nil in Hget. contradiction. }
  rewrite <- (Permutation_length Hperm).
  destruct (List.length (obj_keys merged)); reflexivity.
Qed.

Lemma merge_result_complete_witness :
  List.length [emptyRecord float; costOnly 7%float] <> 1%nat /\
  exists c i o cc cr bm bd,
    mergeUsageData [emptyRecord float; costOnly 7%float] =
      Raw.mk (Some c) (Some i) (Some o) (Some cc) (Some cr) (Some bm) (Some bd).
Proof.
  assert (Hl : List.length [emptyRecord float; costOnly 7%float] <> 1%nat)
    by (simpl; lia).
  split; [exact Hl|].
  destruct (merge_result_complete [emptyRecord float; costOnly 7%float] Hl)
    as [c [i [o [cc [cr [bm [bd [H _]]]]]]]].
  exists c, i, o, cc, cr, bm, bd. exact H.
Defined.



(** Two sources on doubles that share a model and a day. *)
Lemma merge_two_commutes_witness :
  Raw.totalCost (mergeUsageData [sourceOf 0.1 "opus" "2025-01-14";
                                 sourceOf 0.7 "opus" "2025-01-14"]) =
    Some (0.1 + 0.7)%float /\
  scalarTotals (mergeUsageData [sourceOf 0.1 "opus" "2025-01-14";
                                sourceOf 0.7 "opus" "2025-01-14"]) =
  scalarTotals (mergeUsageData [sourceOf 0.7 "opus" "2025-01-14";
                                sourceOf 0.1 "opus" "2025-01-14"]).
Proof.
  split; [vm_compute; reflexivity|].
  refine (proj1 (merge_two_commutes Binary64_sums
                   (sourceOf 0.1 "opus" "2025-01-14") (sourceOf 0.7 "opus" "2025-01-14")
                   _ _)); solve_plainKeys.
Defined.

Lemma merged_period_days_witness :
  Summary.periodDays (calculateSummary (mergeUsageData
     [sourceExact 3 "opus" "2025-01-14"; sourceExact 5 "opus" "2025-01-13";
      sourceExact 4 "sonnet" "2025-01-14"])) = 2%nat /\
  Summary.periodDays (calculateSummary (mergeUsageData
     [sourceExact 3 "opus" "2025-01-14"; sourceExact 5 "opus" "2025-01-13";
      sourceExact 4 "sonnet" "2025-01-14"])) =
  Nat.max 1 (List.length (nodup string_dec (obj_keys (flat_map dayEntries
     [sourceExact 3 "opus" "2025-01-14"; sourceExact 5 "opus" "2025-01-13";
      sourceExact 4 "sonnet" "2025-01-14"])))).
Proof.
  split; [reflexivity|].
  refine (merged_period_days _ _). simpl; lia.
Defined.

(** ** Further properties: sorted views *)

Section SortFacts.

Variable A : Type.
Variable after : A -> A -> bool.

Lemma sortInsertBy_permutation (x : A) (l : list A) :
  Permutation (sortInsertBy after x l) (x :: l).
Proof.
  induction l as [|y l IH]; simpl.
  - apply Permutation_refl.
  - destruct (after x y).
    + transitivity (y :: x :: l); [now apply perm_skip|apply perm_swap].
    + apply Permutation_refl.
Qed.

Lemma Array_sortBy_permutation (l : list A) : Permutation (Array_sortBy after l) l.
Proof.
  unfold Array_sortBy. induction l as [|x l IH]; simpl.
  - apply perm_nil.
  - transitivity (x :: fold_right (sortInsertBy after) [] l).
    + apply sortInsertBy_permutation.
    + now apply perm_skip.
Qed.

Hypothesis after_asym : forall x y, after x y = true -> after y x = false.

Lemma sortInsertBy_sorted (x : A) (l : list A) :
  Sorted (fun a b => after a b = false) l ->
  Sorted (fun a b => after a b = false) (sortInsertBy after x l).
Proof.
  induction l as [|y l IH]; simpl; intros Hs.
  - repeat constructor.
  - apply Sorted_inv in Hs. destruct Hs as [Hl Hhd].
    destruct (after x y) eqn:Hxy.
    + constructor; [now apply IH|].
      destruct l as [|z l]; simpl.
      * constructor. now apply after_asym.
      * destruct (after x z); constructor.
        -- apply HdRel_inv in Hhd. exact Hhd.
        -- now apply after_asym.
    + constructor; [now constructor|]. constructor. exact Hxy.
Qed.

Lemma Array_sortBy_sorted (l : list A) :
  Sorted (fun a b => after a b = false) (Array_sortBy after l).
Proof.
  unfold Array_sortBy. induction l as [|x l IH]; simpl.
  - constructor.
  - now apply sortInsertBy_sorted.
Qed.

End SortFacts.

Lemma Sorted_weaken (A : Type) (R R' : A -> A -> Prop) (P : A -> Prop) (l : list A) :
  (forall a b, P a -> P b -> R a b -> R' a b) ->
  Forall P l -> Sorted R l -> Sorted R' l.
Proof.
  intros HR HP Hs. induction Hs as [|a l Hs IH Hhd]; [constructor|].
  inversion HP as [|a' l' Ha Hl]; subst. constructor; [now apply IH|].
  destruct Hhd as [|b l Hab]; constructor.
  inversion Hl; subst. now apply HR.
Qed.

Lemma Array_sort_sortBy {num : Type} {N : JSNumber num} (A : Type)
  (compare : A -> A -> num) (l : list A) :
  Array_sort compare l = Array_sortBy (fun x y => js_gt0 (compare x y)) l.
Proof.
  unfold Array_sort, Array_sortBy. induction l as [|x l IH]; simpl; [reflexivity|].
  rewrite IH. generalize (fold_right (sortInsertBy (fun x0 y => js_gt0 (compare x0 y))) [] l).
  intros s. induction s as [|y s IHs]; simpl; [reflexivity|].
  now rewrite IHs.
Qed.

(** *** The comparator on doubles and on rationals *)

Lemma binary_round_sign (s : bool) (m : positive) (e : Z) :
  binary_round prec emax s m e = S754_zero s \/
  binary_round prec emax s m e = S754_infinity s \/
  binary_round prec emax s m e = S754_nan \/
  exists m' e', binary_round prec emax s m e = S754_finite s m' e'.
Proof.
  unfold binary_round, binary_round_aux.
  destruct (shl_align m e _) as [mz ez].
  destruct (shr_fexp prec emax (Zpos mz) ez loc_Exact) as [mrs' e'].
  destruct (shr_fexp prec emax _ e' loc_Exact) as [mrs'' e''].
  destruct (shr_m mrs'') as [|p|p]; [now left| |now right; right; left].
  destruct (Z.leb e'' (emax - prec)); [|now right; left].
  right; right; right. eauto.
Qed.

Lemma SFsub_gt0_asym (x y : spec_float) :
  SFltb (S754_zero false) (SFsub prec emax y x) = true ->
  SFltb (S754_zero false) (SFsub prec emax x y) = false.
Proof.
  destruct x as [sx|sx| |sx mx ex]; destruct y as [sy|sy| |sy my ey];
    try (destruct sx); try (destruct sy); try (simpl; (discriminate || reflexivity)).
  all: unfold SFsub; rewrite (Z.min_comm ex ey);
    set (a := cond_Zopp _ (Zpos (fst (shl_align mx ex (Z.min ey ex)))));
    set (b := cond_Zopp _ (Zpos (fst (shl_align my ey (Z.min ey ex)))));
    destruct (b - a)%Z as [|p|p] eqn:Hd;
    [ discriminate
    | assert (Ha : (a - b = Zneg p)%Z) by lia; rewrite Ha; intros _;
      unfold binary_normalize;
      destruct (binary_round_sign true p (Z.min ey ex))
        as [-> | [-> | [-> | [m' [e' ->]]]]]; reflexivity
    | unfold binary_normalize;
      destruct (binary_round_sign true p (Z.min ey ex))
        as [-> | [-> | [-> | [m' [e' ->]]]]]; discriminate ].
Qed.

Lemma Binary64_asym : SignAsym Binary64.number.
Proof.
  constructor. intros x y. cbn [js_gt0 js_sub Binary64.number].
  rewrite !FloatAxioms.ltb_spec, !FloatAxioms.sub_spec. apply SFsub_gt0_asym.
Qed.

Lemma Exact_gt0_sub (x y : Qc) : js_gt0 (js_sub y x) = true <-> (x < y)%Qc.
Proof.
  cbn [js_gt0 js_sub Exact.number]. rewrite negb_true_iff.
  unfold Qclt, Qcminus, Qcplus, Qcopp, Q2Qc. cbn [this]. split.
  - intros H. destruct (Qlt_le_dec (this x) (this y)) as [Hlt|Hle]; [exact Hlt|].
    exfalso. assert (Hb : Qle_bool (Qred (this y + Qred (- this x))) 0 = true).
    { apply Qle_bool_iff. rewrite !Qred_correct. lra. }
    congruence.
  - intros H. destruct (Qle_bool (Qred (this y + Qred (- this x))) 0) eqn:Hb; [|reflexivity].
    apply Qle_bool_iff in Hb. rewrite !Qred_correct in Hb. lra.
Qed.

Lemma Exact_asym : SignAsym Exact.number.
Proof.
  constructor. intros x y Hxy. apply Exact_gt0_sub in Hxy.
  destruct (js_gt0 (js_sub x y)) eqn:Hyx; [|reflexivity].
  apply Exact_gt0_sub in Hyx. exfalso. revert Hxy. apply Qcle_not_lt.
  now apply Qclt_le_weak.
Qed.

Lemma StronglySorted_app_rel (A : Type) (R : A -> A -> Prop) (l1 l2 : list A) :
  StronglySorted R (l1 ++ l2) ->
  forall a b, In a l1 -> In b l2 -> R a b.
Proof.
  induction l1 as [|x l1 IH]; simpl; intros Hs a b Ha Hb; [contradiction|].
  apply StronglySorted_inv in Hs. destruct Hs as [Hs Hall].
  destruct Ha as [->|Ha].
  - rewrite Forall_forall in Hall. apply Hall. apply in_or_app. now right.
  - now apply IH.
Qed.

(** X10.  The model breakdown is in descending order of cost for the
    comparator of the code: it has one entry per model, and for an entry
    [a] directly followed by an entry [b], [b.cost - a.cost > 0] does not
    hold.  This is so on doubles and on rationals alike. *)
Theorem breakdown_sorted_by_cost {num : Type} {N : JSNumber num} (Asym : SignAsym N)
  (shortenModelName : string -> string) (data : Raw.t num) :
  Sorted costNotBelow (getModelBreakdown shortenModelName data) /\
  List.length (getModelBreakdown shortenModelName data) =
    List.length (modelEntries data).
Proof.
  split.
  - unfold getModelBreakdown. rewrite Array_sort_sortBy.
    apply (Array_sortBy_sorted _
             (fun x y : ModelEntry.t num =>
                js_gt0 (js_sub (ModelEntry.cost y) (ModelEntry.cost x)))).
    intros x y. apply js_sub_gt0_asym.
  - rewrite (Permutation_length (getModelBreakdown_permutation shortenModelName data)).
    apply length_map.
Qed.

Lemma breakdown_sorted_by_cost_witness :
  Sorted costNotBelow (getModelBreakdown (fun name => name) overTotal) /\
  Sorted costNotBelow (getModelBreakdown (fun name => name) sampleExact).
Proof.
  split.
  - exact (proj1 (breakdown_sorted_by_cost Binary64_asym (fun name => name) overTotal)).
  - exact (proj1 (breakdown_sorted_by_cost Exact_asym (fun name => name) sampleExact)).
Defined.




(** ** Further properties: the daily series *)

Section DailyExtras.

Context {num : Type} {N : JSNumber num}.

Variable Date_parse : string -> option Z.

Lemma laterDate_asym (a b : DailyUsage.t num) :
  laterDate Date_parse a b = true -> laterDate Date_parse b a = false.
Proof.
  unfold laterDate.
  destruct (Date_parse (DailyUsage.date a)) as [ta|];
    destruct (Date_parse (DailyUsage.date b)) as [tb|]; try discriminate.
  intros H. apply Z.ltb_lt in H. apply Z.ltb_ge. lia.
Qed.

Lemma getDailyUsage_all (data : Raw.t num) :
  getDailyUsage Date_parse data None =
  Array_sortBy (laterDate Date_parse) (map dailyUsageEntry (dayEntries data)).
Proof. reflexivity. Qed.

Lemma getDailyUsage_permutation (data : Raw.t num) :
  Permutation (getDailyUsage Date_parse data None)
              (map dailyUsageEntry (dayEntries data)).
Proof. rewrite getDailyUsage_all. apply Array_sortBy_permutation. Qed.

Lemma getDailyUsage_sorted (data : Raw.t num) :
  (forall key stats, In (key, stats) (dayEntries data) -> Date_parse key <> None) ->
  StronglySorted (fun a b => (timeOf Date_parse b <= timeOf Date_parse a)%Z)
                 (getDailyUsage Date_parse data None).
Proof.
  intros Hvalid. apply Sorted_StronglySorted.
  - intros a b c Hab Hbc. lia.
  - apply (Sorted_weaken _ (fun a b => laterDate Date_parse a b = false) _
             (fun e => Date_parse (DailyUsage.date e) <> None)).
    + intros a b Ha Hb. unfold laterDate, timeOf.
      destruct (Date_parse (DailyUsage.date a)) as [ta|]; [|congruence].
      destruct (Date_parse (DailyUsage.date b)) as [tb|]; [|congruence].
      intros H. apply Z.ltb_ge in H. lia.
    + apply Forall_forall. intros e He.
      apply (Permutation_in _ (getDailyUsage_permutation data)) in He.
      apply in_map_iff in He. destruct He as [[key stats] [<- Hin]]. cbn.
      now apply (Hvalid key stats).
    + rewrite getDailyUsage_all. apply Array_sortBy_sorted. apply laterDate_asym.
Qed.

(** X12.  When every key of [byDay] is a date, the daily series has one
    entry per day of the record, each with the [tokens || 0] and
    [cost || 0] of its day, and runs from the most recent day to the
    oldest. *)
Theorem daily_usage_most_recent_first (data : Raw.t num) :
  (forall key stats, In (key, stats) (dayEntries data) -> Date_parse key <> None) ->
  Permutation (getDailyUsage Date_parse data None)
              (map dailyUsageEntry (dayEntries data)) /\
  StronglySorted (fun a b => (timeOf Date_parse b <= timeOf Date_parse a)%Z)
                 (getDailyUsage Date_parse data None).
Proof.
  intros Hvalid. split.
  - apply getDailyUsage_permutation.
  - now apply getDailyUsage_sorted.
Qed.

(** X13.  A limit of [days] keeps the first [days] entries of the series:
    [min days n] of them, each at least as recent as every entry that is
    left out.  A limit that is 0 or negative keeps the whole series, as
    does [null]. *)
Theorem daily_usage_limit (data : Raw.t num) (days : Z) :
  (forall key stats, In (key, stats) (dayEntries data) -> Date_parse key <> None) ->
  ((days <= 0)%Z ->
   getDailyUsage Date_parse data (Some days) = getDailyUsage Date_parse data None) /\
  ((0 < days)%Z ->
   List.length (getDailyUsage Date_parse data (Some days)) =
     Nat.min (Z.to_nat days) (List.length (dayEntries data)) /\
   exists rest,
     getDailyUsage Date_parse data None =
       getDailyUsage Date_parse data (Some days) ++ rest /\
     forall kept left, In kept (getDailyUsage Date_parse data (Some days)) ->
       In left rest -> (timeOf Date_parse left <= timeOf Date_parse kept)%Z).
Proof.
  intros Hvalid. split.
  - intros Hd. unfold getDailyUsage.
    destruct (0 <? days)%Z eqn:Hpos; [apply Z.ltb_lt in Hpos; lia|].
    now rewrite andb_false_r.
  - intros Hd.
    assert (Hk : getDailyUsage Date_parse data (Some days) =
                 firstn (Z.to_nat days) (getDailyUsage Date_parse data None)).
    { unfold getDailyUsage.
      destruct (days =? 0)%Z eqn:H0; [apply Z.eqb_eq in H0; lia|].
      destruct (0 <? days)%Z eqn:Hpos; [reflexivity|apply Z.ltb_ge in Hpos; lia]. }
    split.
    + rewrite Hk, length_firstn.
      rewrite (Permutation_length (getDailyUsage_permutation data)).
      now rewrite length_map.
    + exists (skipn (Z.to_nat days) (getDailyUsage Date_parse data None)).
      split.
      * rewrite Hk. symmetry. apply firstn_skipn.
      * intros kept left Hkept Hleft.
        apply (StronglySorted_app_rel _
                 (fun a b => (timeOf Date_parse b <= timeOf Date_parse a)%Z)
                 (getDailyUsage Date_parse data (Some days))
                 (skipn (Z.to_nat days) (getDailyUsage Date_parse data None)));
          [|assumption|assumption].
        rewrite Hk, firstn_skipn. now apply getDailyUsage_sorted.
Qed.

End DailyExtras.

Ltac solve_valid_dates :=
  simpl; intros ? ? Hin;
  repeat (destruct Hin as [Hin|Hin];
          [injection Hin as <- _; vm_compute; discriminate|]);
  contradiction.

Lemma daily_usage_most_recent_first_witness :
  map (@DailyUsage.date float) (getDailyUsage Date_parse_iso
         (Raw.mk None None None None None None
            (Some [("2025-01-10", day50); ("2025-01-14", day50); ("2025-01-12", day50)]))
         None)
    = ["2025-01-14"; "2025-01-12"; "2025-01-10"] /\
  StronglySorted (fun a b => (timeOf Date_parse_iso b <= timeOf Date_parse_iso a)%Z)
    (getDailyUsage Date_parse_iso sixDays None).
Proof.
  split; [reflexivity|].
  refine (proj2 (daily_usage_most_recent_first Date_parse_iso sixDays _)).
  solve_valid_dates.
Defined.

Lemma daily_usage_limit_witness :
  (0 < 2)%Z /\
  List.length (getDailyUsage Date_parse_iso sixDays (Some 2%Z)) = 2%nat /\
  List.length (getDailyUsage Date_parse_iso sixDays (Some 2%Z)) =
     Nat.min (Z.to_nat 2) (List.length (dayEntries sixDays)).
Proof.
  assert (Hpos : (0 < 2)%Z) by lia.
  split; [exact Hpos|]. split; [reflexivity|].
  refine (proj1 (proj2 (daily_usage_limit Date_parse_iso sixDays 2%Z _) Hpos)).
  solve_valid_dates.
Defined.

(** ** Further properties: escapeXml *)

Lemma replaceAll_app (c : ascii) (r s t : list ascii) :
  replaceAll c r (s ++ t) = replaceAll c r s ++ replaceAll c r t.
Proof. unfold replaceAll. apply flat_map_app. Qed.

Lemma replaceAll_flat_map (c : ascii) (r : list ascii) (f : ascii -> list ascii)
  (s : list ascii) :
  replaceAll c r (flat_map f s) = flat_map (fun a => replaceAll c r (f a)) s.
Proof.
  induction s as [|a s IH]; simpl; [reflexivity|].
  now rewrite replaceAll_app, IH.
Qed.

Lemma escapeXml_char (c : ascii) : escapeXml [c] = escapeChar c.
Proof.
  destruct c as [[] [] [] [] [] [] [] []]; vm_compute; reflexivity.
Qed.

Lemma escapeXml_flat_map (str : list ascii) : escapeXml str = flat_map escapeChar str.
Proof.
  unfold escapeXml.
  replace (replaceAll "&" (lit "&amp;") str)
    with (flat_map (fun a => replaceAll "&" (lit "&amp;") [a]) str).
  - rewrite !replaceAll_flat_map. apply flat_map_ext. intros a.
    exact (escapeXml_char a).
  - unfold replaceAll. apply flat_map_ext. intros a. simpl. now rewrite app_nil_r.
Qed.

Lemma escapeChar_clean (c : ascii) :
  forallb (fun a => negb (Ascii.eqb a "<" || Ascii.eqb a ">" || Ascii.eqb a quot
                          || Ascii.eqb a apos)) (escapeChar c) = true.
Proof.
  destruct c as [[] [] [] [] [] [] [] []]; vm_compute; reflexivity.
Qed.

Lemma escapeChar_plain (c : ascii) : special c = false -> escapeChar c = [c].
Proof.
  destruct c as [[] [] [] [] [] [] [] []]; vm_compute; intros H;
    (reflexivity || discriminate).
Qed.

Lemma escapeChar_cases (c : ascii) :
  (special c = false /\ escapeChar c = [c]) \/
  (c = "&"%char /\ escapeChar c = lit "&amp;") \/
  (c = "<"%char /\ escapeChar c = lit "&lt;") \/
  (c = ">"%char /\ escapeChar c = lit "&gt;") \/
  (c = quot /\ escapeChar c = lit "&quot;") \/
  (c = apos /\ escapeChar c = lit "&#39;").
Proof.
  destruct c as [[] [] [] [] [] [] [] []]; vm_compute; tauto.
Qed.

Lemma escapeChar_prefix_free (c d : ascii) (s t : list ascii) :
  escapeChar c ++ s = escapeChar d ++ t -> c = d /\ s = t.
Proof.
  intros H.
  destruct (escapeChar_cases c) as [[Hc Ec]|[[Hc Ec]|[[Hc Ec]|[[Hc Ec]|[[Hc Ec]|[Hc Ec]]]]]];
  destruct (escapeChar_cases d) as [[Hd Ed]|[[Hd Ed]|[[Hd Ed]|[[Hd Ed]|[[Hd Ed]|[Hd Ed]]]]]];
    rewrite Ec, Ed in H; cbn in H;
    try (injection H; intros; subst; try discriminate; now split).
Qed.

Lemma special_in_escape (str : list ascii) :
  existsb special str = true -> existsb special (flat_map escapeChar str) = true.
Proof.
  induction str as [|c str IH]; simpl; [discriminate|].
  rewrite existsb_app. intros H. apply orb_true_iff in H. destruct H as [H|H].
  - assert (Hc : existsb special (escapeChar c) = true); [|now rewrite Hc].
    revert H. destruct c as [[] [] [] [] [] [] [] []]; vm_compute; intros H;
      (reflexivity || discriminate).
  - rewrite (IH H). apply orb_true_r.
Qed.

Lemma escape_plain (str : list ascii) :
  existsb special str = false -> flat_map escapeChar str = str.
Proof.
  induction str as [|c str IH]; simpl; [reflexivity|].
  intros H. apply orb_false_iff in H. destruct H as [Hc Hs].
  now rewrite (escapeChar_plain c Hc), (IH Hs).
Qed.

Lemma escape_length (str : list ascii) :
  (List.length str <= List.length (flat_map escapeChar str))%nat /\
  (existsb special str = true ->
   List.length str < List.length (flat_map escapeChar str))%nat.
Proof.
  induction str as [|c str [IH1 IH2]]; simpl; [split; [lia|discriminate]|].
  rewrite length_app.
  assert (Hc : (1 <= List.length (escapeChar c))%nat /\
               (special c = true -> 2 <= List.length (escapeChar c))%nat).
  { destruct c as [[] [] [] [] [] [] [] []]; vm_compute; split;
      try lia; try discriminate; intros _; repeat constructor. }
  destruct Hc as [Hc1 Hc2]. split; [lia|].
  intros H. apply orb_true_iff in H. destruct H as [H|H].
  - specialize (Hc2 H). lia.
  - specialize (IH2 H). lia.
Qed.

(** X17.  The output of [escapeXml] holds none of [<], [>], the double
    quote and the apostrophe.  A text without the five characters it
    replaces comes back unchanged; any other text grows, and escaping the
    result once more changes it again: escaping is idempotent on exactly
    the texts it leaves alone. *)
Theorem escape_xml_output (str : list ascii) :
  forallb (fun a => negb (Ascii.eqb a "<" || Ascii.eqb a ">" || Ascii.eqb a quot
                          || Ascii.eqb a apos)) (escapeXml str) = true /\
  (existsb special str = false -> escapeXml str = str) /\
  (existsb special str = true ->
   (List.length str < List.length (escapeXml str))%nat /\
   escapeXml (escapeXml str) <> escapeXml str).
Proof.
  rewrite !escapeXml_flat_map. split; [|split].
  - induction str as [|c str IH]; simpl; [reflexivity|].
    now rewrite forallb_app, escapeChar_clean, IH.
  - apply escape_plain.
  - intros H. split; [now apply escape_length|].
    intros Heq. apply special_in_escape in H.
    apply (proj2 (escape_length (flat_map escapeChar str))) in H.
    rewrite Heq in H. lia.
Qed.

(** X18.  [escapeXml] loses nothing: two texts with the same escaped form
    are the same text. *)
Theorem escape_xml_injective (str str' : list ascii) :
  escapeXml str = escapeXml str' -> str = str'.
Proof.
  rewrite !escapeXml_flat_map. revert str'.
  induction str as [|c str IH]; intros [|d str']; simpl; intros H.
  - reflexivity.
  - exfalso. destruct (escapeChar_cases d)
      as [[Hd Ed]|[[Hd Ed]|[[Hd Ed]|[[Hd Ed]|[[Hd Ed]|[Hd Ed]]]]]];
      rewrite Ed in H; discriminate.
  - exfalso. destruct (escapeChar_cases c)
      as [[Hc Ec]|[[Hc Ec]|[[Hc Ec]|[[Hc Ec]|[[Hc Ec]|[Hc Ec]]]]]];
      rewrite Ec in H; discriminate.
  - apply escapeChar_prefix_free in H. destruct H as [-> H].
    now rewrite (IH str' H).
Qed.

Lemma escape_xml_injective_witness :
  escapeXml (lit "a<b") = lit "a&lt;b" /\ lit "a<b" = lit "a<b".
Proof.
  split; [reflexivity|].
  exact (escape_xml_injective (lit "a<b") (lit "a<b") eq_refl).
Defined.

(** ** Further properties: the markers of the README *)

Lemma startsWith_app (n s : list ascii) : startsWith n (n ++ s) = true.
Proof. induction n as [|a n IH]; simpl; [reflexivity|]. now rewrite Ascii.eqb_refl. Qed.

Lemma startsWith_split (n s : list ascii) :
  startsWith n s = true -> s = n ++ skipn (List.length n) s.
Proof.
  revert s. induction n as [|a n IH]; intros [|b s]; simpl; try discriminate;
    try reflexivity.
  intros H. apply andb_true_iff in H. destruct H as [Hab Hs].
  apply Ascii.eqb_eq in Hab. subst b. f_equal. now apply IH.
Qed.

Lemma startsWith_length (n s : list ascii) :
  startsWith n s = true -> (List.length n <= List.length s)%nat.
Proof.
  intros H. rewrite (startsWith_split n s H), length_app. lia.
Qed.

Lemma startsWith_app_short (n a x : list ascii) :
  (List.length n <= List.length a)%nat -> startsWith n (a ++ x) = startsWith n a.
Proof.
  revert a. induction n as [|c n IH]; intros [|d a]; simpl; intros Hl;
    try reflexivity; try lia.
  rewrite IH; [reflexivity|lia].
Qed.

(** A character that the needle lacks stops every match. *)
Lemma startsWith_sep (c : ascii) (n a b : list ascii) :
  ~ In c n -> startsWith n (a ++ c :: b) = startsWith n a.
Proof.
  revert a. induction n as [|x n IH]; intros a Hc; [reflexivity|].
  destruct a as [|d a]; simpl.
  - destruct (Ascii.eqb_spec x c) as [->|Hne]; [|reflexivity].
    exfalso. apply Hc. now left.
  - rewrite IH; [reflexivity|]. intros Hin. apply Hc. now right.
Qed.

Lemma indexOf_cons (n : list ascii) (b : ascii) (s : list ascii) :
  indexOf n (b :: s) =
    if startsWith n (b :: s) then Some 0%nat else option_map S (indexOf n s).
Proof. reflexivity. Qed.

Lemma indexOf_nil (n : list ascii) :
  indexOf n [] = if startsWith n [] then Some 0%nat else None.
Proof. reflexivity. Qed.

Lemma indexOf_bound (n s : list ascii) (i : nat) :
  indexOf n s = Some i -> (i + List.length n <= List.length s)%nat.
Proof.
  revert i. induction s as [|b s IH]; intros i; simpl.
  - destruct (startsWith n []) eqn:Hs; [|discriminate].
    intros [= <-]. apply startsWith_length in Hs. simpl in *. lia.
  - destruct (startsWith n (b :: s)) eqn:Hs.
    + intros [= <-]. apply startsWith_length in Hs. simpl in *. lia.
    + destruct (indexOf n s) as [j|]; [|discriminate].
      intros [= <-]. specialize (IH j eq_refl). lia.
Qed.

Lemma indexOf_split (n s : list ascii) (i : nat) :
  indexOf n s = Some i ->
  s = firstn i s ++ n ++ skipn (i + List.length n) s.
Proof.
  revert i. induction s as [|b s IH]; intros i; simpl.
  - destruct (startsWith n []) eqn:Hs; [|discriminate].
    intros [= <-]. exact (startsWith_split n [] Hs).
  - destruct (startsWith n (b :: s)) eqn:Hs.
    + intros [= <-]. exact (startsWith_split n (b :: s) Hs).
    + destruct (indexOf n s) as [j|] eqn:Hj; [|discriminate].
      intros [= <-]. simpl. f_equal. now apply IH.
Qed.

(** The first occurrence lies in a prefix: what follows the prefix does
    not matter. *)
Lemma indexOf_prefix (n a x y : list ascii) (i : nat) :
  indexOf n (a ++ x) = Some i -> (i + List.length n <= List.length a)%nat ->
  indexOf n (a ++ y) = Some i.
Proof.
  revert i. induction a as [|d a IH]; intros i.
  - simpl. intros H Hl. assert (n = []) by (destruct n; simpl in *; [reflexivity|lia]).
    subst n. assert (i = 0%nat) by (simpl in Hl; lia). subst i. destruct y; reflexivity.
  - intros H Hl. cbn [app indexOf] in *.
    destruct (startsWith n (d :: a ++ x)) eqn:Hs.
    + injection H as <-. change (d :: a ++ x) with ((d :: a) ++ x) in Hs.
      change (d :: a ++ y) with ((d :: a) ++ y).
      rewrite startsWith_app_short in Hs by (simpl in *; lia).
      rewrite startsWith_app_short by (simpl in *; lia). now rewrite Hs.
    + destruct (indexOf n (a ++ x)) as [j|] eqn:Hj; [|discriminate].
      injection H as <-.
      change (d :: a ++ x) with ((d :: a) ++ x) in Hs.
      change (d :: a ++ y) with ((d :: a) ++ y).
      rewrite startsWith_app_short in Hs by (simpl in *; lia).
      rewrite startsWith_app_short by (simpl in *; lia). rewrite Hs.
      rewrite (IH j eq_refl) by (simpl in *; lia). reflexivity.
Qed.

Lemma indexOf_app_found (n a x : list ascii) (i : nat) :
  indexOf n a = Some i -> indexOf n (a ++ x) = Some i.
Proof.
  intros H. pose proof (indexOf_bound n a i H) as Hb.
  rewrite <- (app_nil_r a) in H. exact (indexOf_prefix n a [] x i H Hb).
Qed.

(** Across a character that the needle lacks, the search goes through the
    part before it and then through the part after it. *)
Lemma indexOf_sep (c : ascii) (n a b : list ascii) :
  ~ In c n -> n <> [] ->
  indexOf n (a ++ c :: b) =
    match indexOf n a with
    | Some i => Some i
    | None => option_map (fun k => (List.length a + 1 + k)%nat) (indexOf n b)
    end.
Proof.
  intros Hc Hn. induction a as [|d a IH].
  - cbn [app]. rewrite indexOf_cons, indexOf_nil.
    assert (H0 : startsWith n (c :: b) = false).
    { change (c :: b) with ([] ++ c :: b). rewrite startsWith_sep by assumption.
      destruct n; [contradiction|reflexivity]. }
    assert (H1 : startsWith n [] = false) by (destruct n; [contradiction|reflexivity]).
    rewrite H0, H1. destruct (indexOf n b); reflexivity.
  - cbn [app]. rewrite !indexOf_cons.
    change (d :: a ++ c :: b) with ((d :: a) ++ c :: b).
    rewrite startsWith_sep by assumption.
    destruct (startsWith n (d :: a)); [reflexivity|].
    rewrite IH. destruct (indexOf n a) as [i|]; [reflexivity|].
    destruct (indexOf n b) as [k|]; [|reflexivity].
    cbn. f_equal.
Qed.

Lemma newline_not_in_START : ~ In newline START_MARKER.
Proof. vm_compute. intuition discriminate. Qed.

Lemma newline_not_in_END : ~ In newline END_MARKER.
Proof. vm_compute. intuition discriminate. Qed.

Lemma START_not_nil : START_MARKER <> [].
Proof. discriminate. Qed.

Lemma END_not_nil : END_MARKER <> [].
Proof. discriminate. Qed.

(** The end marker cannot begin inside the start marker. *)
Lemma markers_do_not_overlap (pre r pre' r' : list ascii) :
  pre ++ START_MARKER ++ r = pre' ++ END_MARKER ++ r' ->
  (List.length pre < List.length pre')%nat ->
  exists mid, pre' = pre ++ START_MARKER ++ mid.
Proof.
  intros H Hl.
  destruct (Nat.le_gt_cases (List.length pre + List.length START_MARKER)
              (List.length pre')) as [Hge|Hlt].
  - rewrite app_assoc in H. apply app_eq_app in H.
    destruct H as [l [[H1 H2]|[H1 H2]]].
    + assert (l = []).
      { apply (f_equal (@List.length ascii)) in H1. rewrite !length_app in H1.
        assert (Hl0 : List.length l = 0%nat) by lia.
        destruct l; [reflexivity|discriminate]. }
      subst l. rewrite app_nil_r in H1. exists []. now rewrite app_nil_r.
    + exists l. now rewrite H1, app_assoc.
  - exfalso.
    assert (Hn : nth_error (pre ++ START_MARKER ++ r) (List.length pre')
                 = Some "<"%char).
    { rewrite H, nth_error_app2 by lia. now rewrite Nat.sub_diag. }
    rewrite nth_error_app2 in Hn by lia.
    rewrite nth_error_app1 in Hn by lia.
    remember (List.length pre' - List.length pre)%nat as d eqn:Hd.
    assert (Hrange : (1 <= d < 29)%nat) by (change (List.length START_MARKER) with 29%nat in Hlt; lia).
    clear - Hn Hrange.
    do 29 (destruct d as [|d]; [vm_compute in Hn; (discriminate || lia)|]). lia.
Qed.

Lemma firstn_app_exact (A : Type) (a b : list A) : firstn (List.length a) (a ++ b) = a.
Proof. rewrite firstn_app, Nat.sub_diag, firstn_all. simpl. apply app_nil_r. Qed.

Lemma skipn_app_exact (A : Type) (a b : list A) : skipn (List.length a) (a ++ b) = b.
Proof. rewrite skipn_app, Nat.sub_diag, skipn_all. reflexivity. Qed.

(** Markers that are found frame the text: the first start marker, then
    the first end marker of the text, which begins after it. *)
Lemma findMarkers_frame (content : list ascii) (markers : Markers.t) :
  findMarkers content = Some markers ->
  exists pre mid post,
    content = pre ++ START_MARKER ++ mid ++ END_MARKER ++ post /\
    indexOf START_MARKER content = Some (List.length pre) /\
    indexOf END_MARKER content = Some (List.length (pre ++ START_MARKER ++ mid)) /\
    markers = Markers.mk (List.length pre) (List.length (pre ++ START_MARKER))
                (List.length (pre ++ START_MARKER ++ mid))
                (List.length (pre ++ START_MARKER ++ mid ++ END_MARKER)).
Proof.
  unfold findMarkers.
  destruct (indexOf START_MARKER content) as [si|] eqn:Hs; [|discriminate].
  destruct (indexOf END_MARKER content) as [ei|] eqn:He; [|discriminate].
  destruct (ei <=? si)%nat eqn:Hle; [discriminate|]. apply Nat.leb_gt in Hle.
  intros [= <-].
  pose proof (indexOf_split _ _ _ Hs) as Es.
  pose proof (indexOf_split _ _ _ He) as Ee.
  pose proof (indexOf_bound _ _ _ Hs) as Bs.
  pose proof (indexOf_bound _ _ _ He) as Be.
  assert (Ls : List.length (firstn si content) = si) by (rewrite length_firstn; lia).
  assert (Le : List.length (firstn ei content) = ei) by (rewrite length_firstn; lia).
  destruct (markers_do_not_overlap (firstn si content)
              (skipn (si + List.length START_MARKER) content)
              (firstn ei content)
              (skipn (ei + List.length END_MARKER) content)) as [mid Hmid].
  { now rewrite <- Es, <- Ee. }
  { lia. }
  exists (firstn si content), mid, (skipn (ei + List.length END_MARKER) content).
  assert (Hlen : List.length (firstn si content ++ START_MARKER ++ mid) = ei)
    by (now rewrite <- Hmid).
  split; [|split; [|split]].
  - rewrite Ee at 1. rewrite Hmid. now rewrite <- !app_assoc.
  - now rewrite Ls.
  - now rewrite Hlen.
  - f_equal.
    + now rewrite Ls.
    + rewrite length_app. now rewrite Ls.
    + now rewrite Hlen.
    + rewrite !app_assoc, length_app, <- !app_assoc. now rewrite Hlen.
Qed.

Lemma indexOf_here (n s : list ascii) : indexOf n (n ++ s) = Some 0%nat.
Proof.
  pose proof (startsWith_app n s) as H.
  destruct (n ++ s) as [|b t].
  - now rewrite indexOf_nil, H.
  - now rewrite indexOf_cons, H.
Qed.

Lemma indexOf_END_in_START_prefix (pre x : list ascii) (ei : nat) :
  indexOf END_MARKER ((pre ++ START_MARKER) ++ x) = Some ei ->
  (List.length (pre ++ START_MARKER) <= ei)%nat ->
  indexOf END_MARKER (pre ++ START_MARKER) = None.
Proof.
  intros He Hle. destruct (indexOf END_MARKER (pre ++ START_MARKER)) as [i|] eqn:Hi;
    [|reflexivity].
  pose proof (indexOf_bound _ _ _ Hi) as Hb.
  rewrite (indexOf_app_found _ _ x _ Hi) in He. injection He as <-.
  change (List.length END_MARKER) with 27%nat in Hb. lia.
Qed.

(** The text that [insertContent] builds, and where its markers are. *)
Lemma inserted_markers (pre mid post c : list ascii) :
  indexOf START_MARKER (pre ++ START_MARKER ++ mid ++ END_MARKER ++ post)
    = Some (List.length pre) ->
  indexOf END_MARKER (pre ++ START_MARKER ++ mid ++ END_MARKER ++ post)
    = Some (List.length (pre ++ START_MARKER ++ mid)) ->
  indexOf START_MARKER (pre ++ START_MARKER ++ [newline] ++ c ++ [newline]
                            ++ END_MARKER ++ post) = Some (List.length pre) /\
  indexOf END_MARKER (pre ++ START_MARKER ++ [newline] ++ c ++ [newline]
                          ++ END_MARKER ++ post) =
    Some (List.length (pre ++ START_MARKER) + 1 +
          match indexOf END_MARKER c with
          | Some k => k
          | None => List.length c + 1
          end)%nat.
Proof.
  intros Hs He. split.
  - rewrite app_assoc in Hs. rewrite app_assoc.
    apply (indexOf_prefix _ _ _ _ _ Hs). rewrite length_app. lia.
  - assert (Hnone : indexOf END_MARKER (pre ++ START_MARKER) = None).
    { apply (indexOf_END_in_START_prefix pre (mid ++ END_MARKER ++ post)
               (List.length (pre ++ START_MARKER ++ mid))).
      - now rewrite <- app_assoc.
      - rewrite !length_app. lia. }
    rewrite app_assoc. cbn [app].
    rewrite (indexOf_sep newline END_MARKER (pre ++ START_MARKER) _
               newline_not_in_END END_not_nil), Hnone.
    rewrite (indexOf_sep newline END_MARKER c _ newline_not_in_END END_not_nil).
    destruct (indexOf END_MARKER c) as [k|]; [reflexivity|].
    rewrite indexOf_here. cbn. f_equal. lia.
Qed.

(** X19.  Without usable markers [insertContent] fails and hands back the
    original text.  With them the original is
    [pre START mid END post], START being the first start marker and END
    the first end marker of the text, and the result is
    [pre START \n newContent \n END post]: what stood between the markers
    is replaced, everything else is kept. *)
Theorem insert_between_markers (original newContent : list ascii) :
  (findMarkers original = None ->
   InsertResult.success (insertContent original newContent) = false /\
   InsertResult.content (insertContent original newContent) = original) /\
  (forall markers, findMarkers original = Some markers ->
   InsertResult.success (insertContent original newContent) = true /\
   exists pre mid post,
     original = pre ++ START_MARKER ++ mid ++ END_MARKER ++ post /\
     includes START_MARKER pre = false /\
     includes END_MARKER (pre ++ START_MARKER ++ mid) = false /\
     InsertResult.content (insertContent original newContent) =
       pre ++ START_MARKER ++ [newline] ++ newContent ++ [newline]
           ++ END_MARKER ++ post).
Proof.
  split.
  - intros H. unfold insertContent. rewrite H. split; reflexivity.
  - intros markers H. unfold insertContent. rewrite H. split; [reflexivity|].
    destruct (findMarkers_frame original markers H)
      as [pre [mid [post [Ho [Hs [He Hm]]]]]].
    exists pre, mid, post. split; [exact Ho|]. split; [|split].
    + unfold includes. destruct (indexOf START_MARKER pre) as [i|] eqn:Hi;
        [|reflexivity].
      pose proof (indexOf_bound _ _ _ Hi) as Hb.
      rewrite Ho in Hs.
      rewrite (indexOf_app_found _ _ (START_MARKER ++ mid ++ END_MARKER ++ post) _ Hi)
        in Hs.
      injection Hs as Hs. change (List.length START_MARKER) with 29%nat in Hb. lia.
    + unfold includes.
      destruct (indexOf END_MARKER (pre ++ START_MARKER ++ mid)) as [i|] eqn:Hi;
        [|reflexivity].
      pose proof (indexOf_bound _ _ _ Hi) as Hb.
      rewrite Ho in He.
      replace (pre ++ START_MARKER ++ mid ++ END_MARKER ++ post)
        with ((pre ++ START_MARKER ++ mid) ++ END_MARKER ++ post) in He
        by (now rewrite <- !app_assoc).
      rewrite (indexOf_app_found _ _ (END_MARKER ++ post) _ Hi) in He.
      assert (Hei : i = List.length (pre ++ START_MARKER ++ mid)) by congruence.
      change (List.length END_MARKER) with 27%nat in Hb. lia.
    + cbn [InsertResult.content]. rewrite Hm. cbn [Markers.startEnd Markers.stop].
      rewrite Ho at 1.
      replace (pre ++ START_MARKER ++ mid ++ END_MARKER ++ post)
        with ((pre ++ START_MARKER) ++ mid ++ END_MARKER ++ post)
        by (now rewrite <- !app_assoc).
      rewrite firstn_app_exact.
      rewrite Ho.
      replace (pre ++ START_MARKER ++ mid ++ END_MARKER ++ post)
        with ((pre ++ START_MARKER ++ mid) ++ END_MARKER ++ post)
        by (now rewrite <- !app_assoc).
      rewrite skipn_app_exact. now rewrite <- !app_assoc.
Qed.

Lemma insertContent_found (pre mid post c : list ascii) :
  indexOf START_MARKER (pre ++ START_MARKER ++ mid ++ END_MARKER ++ post)
    = Some (List.length pre) ->
  indexOf END_MARKER (pre ++ START_MARKER ++ mid ++ END_MARKER ++ post)
    = Some (List.length (pre ++ START_MARKER ++ mid)) ->
  insertContent (pre ++ START_MARKER ++ mid ++ END_MARKER ++ post) c =
    InsertResult.mk true
      (pre ++ START_MARKER ++ [newline] ++ c ++ [newline] ++ END_MARKER ++ post)
      (lit "Content inserted successfully").
Proof.
  intros Hs He. unfold insertContent, findMarkers. rewrite Hs, He.
  assert (Hlt : (List.length (pre ++ START_MARKER ++ mid) <=? List.length pre)%nat = false).
  { apply Nat.leb_gt. rewrite !length_app. change (List.length START_MARKER) with 29%nat. lia. }
  rewrite Hlt. cbn [Markers.startEnd Markers.stop]. f_equal.
  replace (List.length pre + List.length START_MARKER)%nat
    with (List.length (pre ++ START_MARKER)) by apply length_app.
  replace (pre ++ START_MARKER ++ mid ++ END_MARKER ++ post)
    with ((pre ++ START_MARKER) ++ mid ++ END_MARKER ++ post) at 1
    by (now rewrite <- !app_assoc).
  rewrite firstn_app_exact.
  replace (pre ++ START_MARKER ++ mid ++ END_MARKER ++ post)
    with ((pre ++ START_MARKER ++ mid) ++ END_MARKER ++ post)
    by (now rewrite <- !app_assoc).
  rewrite skipn_app_exact. now rewrite <- !app_assoc.
Qed.

(** X20.  Inserting again replaces what was inserted before: when the
    first content holds no end marker, inserting [first] and then [second]
    gives the text that inserting [second] alone gives.  In particular the
    same content inserted twice is there once. *)
Theorem insert_replaces_previous (original first second : list ascii) :
  findMarkers original <> None ->
  includes END_MARKER first = false ->
  insertContent (InsertResult.content (insertContent original first)) second =
  insertContent original second.
Proof.
  intros Hfound Hfirst.
  destruct (findMarkers original) as [markers|] eqn:Hm; [clear Hfound|congruence].
  destruct (findMarkers_frame original markers Hm)
    as [pre [mid [post [Ho [Hs [He _]]]]]].
  rewrite Ho in Hs, He. rewrite Ho.
  rewrite !(insertContent_found pre mid post _ Hs He). cbn [InsertResult.content].
  destruct (inserted_markers pre mid post first Hs He) as [Hs' He'].
  unfold includes in Hfirst.
  destruct (indexOf END_MARKER first) as [k|]; [discriminate|].
  replace (List.length (pre ++ START_MARKER) + 1 + (List.length first + 1))%nat
    with (List.length (pre ++ START_MARKER ++ [newline] ++ first ++ [newline])) in He'
    by (rewrite !length_app; simpl; lia).
  pose proof (insertContent_found pre ([newline] ++ first ++ [newline]) post second)
    as Hins.
  rewrite <- !app_assoc in Hins. apply Hins; assumption.
Qed.

Lemma hasMarkers_inserted (original content : list ascii) :
  findMarkers original <> None ->
  findMarkers (InsertResult.content (insertContent original content)) <> None.
Proof.
  intros Hfound.
  destruct (findMarkers original) as [markers|] eqn:Hm; [clear Hfound|congruence].
  destruct (findMarkers_frame original markers Hm)
    as [pre [mid [post [Ho [Hs [He _]]]]]].
  rewrite Ho in Hs, He. rewrite Ho.
  rewrite (insertContent_found pre mid post _ Hs He). cbn [InsertResult.content].
  destruct (inserted_markers pre mid post content Hs He) as [Hs' He'].
  unfold findMarkers. rewrite Hs', He'.
  match goal with |- context [(?a <=? ?b)%nat] =>
    assert (Hlt : (a <=? b)%nat = false)
      by (apply Nat.leb_gt; rewrite length_app; lia);
    rewrite Hlt
  end.
  discriminate.
Qed.

Lemma writeFile_other (fs : FileSystem) (path p : string) (data : list ascii) :
  p <> path -> writeFile fs path data p = fs p.
Proof.
  intros Hp. unfold writeFile. destruct (String.eqb_spec p path); [contradiction|reflexivity].
Qed.

Lemma writeFile_same (fs : FileSystem) (path : string) (data : list ascii) :
  writeFile fs path data path = Some data.
Proof. unfold writeFile. now rewrite String.eqb_refl. Qed.

(** X21.  [updateReadme] succeeds exactly when the file exists and has
    usable markers.  When it fails no file changes; when it succeeds only
    the README changes, to the text with the content inserted, and the
    README still has usable markers, whatever the content is. *)
Theorem update_readme_effect (fs : FileSystem) (readmePath : string)
  (content : list ascii) :
  UpdateResult.success (snd (updateReadme fs readmePath content))
    = hasMarkers fs readmePath /\
  (hasMarkers fs readmePath = false ->
   fst (updateReadme fs readmePath content) = fs) /\
  (hasMarkers fs readmePath = true ->
   (forall p, p <> readmePath -> fst (updateReadme fs readmePath content) p = fs p) /\
   (exists original,
      fs readmePath = Some original /\
      fst (updateReadme fs readmePath content) readmePath =
        Some (InsertResult.content (insertContent original content))) /\
   hasMarkers (fst (updateReadme fs readmePath content)) readmePath = true).
Proof.
  unfold updateReadme, hasMarkers.
  destruct (fs readmePath) as [original|] eqn:Hfs.
  - pose proof (hasMarkers_inserted original content) as Hkeep.
    unfold insertContent in *.
    destruct (findMarkers original) as [markers|] eqn:Hm;
      cbn [InsertResult.success InsertResult.content negb fst snd UpdateResult.success] in *.
    + split; [reflexivity|]. split; [discriminate|]. intros _.
      split; [|split].
      * intros p Hp. now apply writeFile_other.
      * exists original. split; [reflexivity|]. rewrite Hm. apply writeFile_same.
      * rewrite writeFile_same.
        destruct (findMarkers (firstn _ _ ++ _)); [reflexivity|].
        exfalso. now apply Hkeep.
    + split; [reflexivity|]. split; [reflexivity|discriminate].
  - cbn. split; [reflexivity|]. split; [reflexivity|discriminate].
Qed.

Lemma update_readme_effect_witness :
  hasMarkers
    (fst (updateReadme
            (fun p => if String.eqb p "README.md"
                      then Some (lit "# T" ++ START_MARKER ++ lit "old" ++ END_MARKER)
                      else None)
            "README.md" END_MARKER))
    "README.md" = true.
Proof.
  refine (proj2 (proj2 (proj2 (proj2 (update_readme_effect _ "README.md" END_MARKER)) _))).
  reflexivity.
Defined.

(** X22.  [addMarkers] on an existing file reports success, keeps what the
    file held as a prefix and touches no other file.  Afterwards the file
    has usable markers exactly when it had them before or held no end
    marker: a file with an end marker and no start marker before it gets
    the block appended and still has no usable markers. *)
Theorem add_markers_effect (fs : FileSystem) (readmePath : string)
  (content : list ascii) :
  fs readmePath = Some content ->
  UpdateResult.success (snd (addMarkers fs readmePath)) = true /\
  (forall p, p <> readmePath -> fst (addMarkers fs readmePath) p = fs p) /\
  (exists block, fst (addMarkers fs readmePath) readmePath = Some (content ++ block)) /\
  hasMarkers (fst (addMarkers fs readmePath)) readmePath =
    hasMarkers fs readmePath || negb (includes END_MARKER content).
Proof.
  intros Hfs. unfold addMarkers, hasMarkers. rewrite Hfs.
  destruct (findMarkers content) as [markers|] eqn:Hm; cbn [fst snd UpdateResult.success].
  - split; [reflexivity|]. split; [reflexivity|]. split.
    + exists []. now rewrite app_nil_r.
    + now rewrite Hfs, Hm.
  - split; [reflexivity|]. split; [intros p Hp; now apply writeFile_other|]. split.
    + eexists. apply writeFile_same.
    + rewrite writeFile_same. cbn [orb].
      set (tail := [newline] ++ START_MARKER ++ [newline] ++ END_MARKER ++ [newline]).
      change ([newline; newline] ++ START_MARKER ++ [newline] ++ END_MARKER ++ [newline])
        with (newline :: tail).
      unfold findMarkers, includes in *.
      rewrite (indexOf_sep newline START_MARKER content tail
                 newline_not_in_START START_not_nil).
      rewrite (indexOf_sep newline END_MARKER content tail
                 newline_not_in_END END_not_nil).
      change (indexOf START_MARKER tail) with (Some 1%nat).
      change (indexOf END_MARKER tail) with (Some 31%nat).
      cbn [option_map].
      destruct (indexOf START_MARKER content) as [si|] eqn:Hs;
        destruct (indexOf END_MARKER content) as [ei|] eqn:He; cbn [negb].
      * destruct (ei <=? si)%nat; [reflexivity|discriminate].
      * pose proof (indexOf_bound _ _ _ Hs) as Hb.
        assert (Hlt : (List.length content + 1 + 31 <=? si)%nat = false)
          by (apply Nat.leb_gt; lia).
        now rewrite Hlt.
      * pose proof (indexOf_bound _ _ _ He) as Hb.
        assert (Hle : (ei <=? List.length content + 1 + 1)%nat = true)
          by (apply Nat.leb_le; lia).
        now rewrite Hle.
      * assert (Hlt : (List.length content + 1 + 31 <=? List.length content + 1 + 1)%nat
                      = false) by (apply Nat.leb_gt; lia).
        now rewrite Hlt.
Qed.

Lemma add_markers_effect_witness :
  hasMarkers (fst (addMarkers (fun p => if String.eqb p "README.md"
                                        then Some (lit "# T" ++ END_MARKER) else None)
                              "README.md"))
             "README.md" = false.
Proof.
  exact (proj2 (proj2 (proj2
           (add_markers_effect
              (fun p => if String.eqb p "README.md"
                        then Some (lit "# T" ++ END_MARKER) else None)
              "README.md" (lit "# T" ++ END_MARKER) eq_refl)))).
Defined.

Lemma insert_replaces_previous_witness :
  insertContent
    (InsertResult.content
       (insertContent (lit "# T" ++ START_MARKER ++ lit "old" ++ END_MARKER ++ lit "tail")
                      (lit "first")))
    (lit "second") =
  insertContent (lit "# T" ++ START_MARKER ++ lit "old" ++ END_MARKER ++ lit "tail")
                (lit "second").
Proof.
  apply (insert_replaces_previous
           (lit "# T" ++ START_MARKER ++ lit "old" ++ END_MARKER ++ lit "tail")
           (lit "first") (lit "second")).
  - vm_compute. discriminate.
  - reflexivity.
Defined.

(** ** Further properties: transformCcusageFormat *)

Lemma lastOf_cons (A : Type) (x : A) (l : list A) :
  lastOf (x :: l) = match lastOf l with Some y => Some y | None => Some x end.
Proof.
  unfold lastOf. simpl. destruct (rev l); reflexivity.
Qed.

(** A loop of assignments leaves for each key the last value assigned. *)
Lemma obj_set_fold_get (V : Type) (k : string) (es o : obj V) :
  obj_get k (fold_left (fun a e => obj_set (fst e) (snd e) a) es o) =
  match lastOf (contributions k es) with
  | Some v => Some v
  | None => obj_get k o
  end.
Proof.
  revert o. induction es as [|[k' v] es IH]; intros o.
  - reflexivity.
  - simpl fold_left. rewrite IH, obj_get_set. unfold contributions. simpl.
    destruct (String.eqb k k'); simpl.
    + rewrite lastOf_cons. destruct (lastOf _); reflexivity.
    + reflexivity.
Qed.

Lemma obj_set_fold_wf (V : Type) (es o : obj V) :
  obj_wf o -> obj_wf (fold_left (fun a e => obj_set (fst e) (snd e) a) es o).
Proof.
  revert o. induction es as [|e es IH]; simpl; intros o Hwf; [exact Hwf|].
  apply IH. now apply obj_wf_set.
Qed.

Lemma lastOf_none (A : Type) (l : list A) : lastOf l = None <-> l = [].
Proof.
  unfold lastOf. split.
  - intros H. destruct (rev l) eqn:E; [|discriminate].
    apply (f_equal (@rev A)) in E. now rewrite rev_involutive in E.
  - now intros ->.
Qed.

Section TransformExtras.

Context {num : Type} {N : JSNumber num}.

Lemma transformModel_fold (models : list (ModelBreakdown.t num))
  (byModel : obj (ModelStats.t num)) :
  fold_left transformModel models byModel =
  fold_left (mergeEntry zeroModelStats addModelStats)
    (map (fun model =>
            (ModelBreakdown.modelName model,
             ModelStats.mk (ModelBreakdown.cost model) (ModelBreakdown.inputTokens model)
                           (ModelBreakdown.outputTokens model))) models)
    byModel.
Proof.
  revert byModel. induction models as [|m models IH]; simpl; intros byModel;
    [reflexivity|]. now rewrite IH.
Qed.

Lemma transformDay_pair (byDay : obj (DayStats.t num)) (byModel : obj (ModelStats.t num))
  (day : DailyRecord.t num) :
  transformDay (byDay, byModel) day =
  (obj_set (fst (dayRecordEntry day)) (snd (dayRecordEntry day)) byDay,
   match DailyRecord.modelBreakdowns day with
   | Some models => fold_left transformModel models byModel
   | None => byModel
   end).
Proof. reflexivity. Qed.

Lemma transformDay_fold (daily : list (DailyRecord.t num))
  (byDay : obj (DayStats.t num)) (byModel : obj (ModelStats.t num)) :
  fold_left transformDay daily (byDay, byModel) =
  (fold_left (fun a e => obj_set (fst e) (snd e) a) (map dayRecordEntry daily) byDay,
   fold_left (mergeEntry zeroModelStats addModelStats) (breakdownEntries daily) byModel).
Proof.
  revert byDay byModel. induction daily as [|day daily IH]; intros byDay byModel;
    [reflexivity|].
  cbn [fold_left map]. rewrite transformDay_pair, IH. f_equal.
  unfold breakdownEntries. cbn [flat_map]. rewrite fold_left_app. f_equal.
  destruct (DailyRecord.modelBreakdowns day) as [models|]; [|reflexivity].
  apply transformModel_fold.
Qed.

Lemma transformCcusageFormat_ccusage (rawData : UsageInput.t num) :
  Raw.totalCost (UsageInput.internal rawData) = None \/ UsageInput.daily rawData <> None ->
  transformCcusageFormat rawData =
    Raw.mk (Some (totalOf (UsageInput.totals rawData) (@Totals.totalCost num)))
           (Some (totalOf (UsageInput.totals rawData) (@Totals.inputTokens num)))
           (Some (totalOf (UsageInput.totals rawData) (@Totals.outputTokens num)))
           (Some (totalOf (UsageInput.totals rawData) (@Totals.cacheCreationTokens num)))
           (Some (totalOf (UsageInput.totals rawData) (@Totals.cacheReadTokens num)))
           (Some (fold_left (mergeEntry zeroModelStats addModelStats)
                    (breakdownEntries (dailyOf rawData)) []))
           (Some (fold_left (fun a e => obj_set (fst e) (snd e) a)
                    (map dayRecordEntry (dailyOf rawData)) [])).
Proof.
  intros H. unfold transformCcusageFormat, dailyOf.
  destruct (Raw.totalCost (UsageInput.internal rawData)) as [c|] eqn:Hc;
    destruct (UsageInput.daily rawData) as [daily|] eqn:Hd;
    try (destruct H as [H|H]; congruence);
    rewrite transformDay_fold; reflexivity.
Qed.

(** X14.  From a ccusage input the five totals are those of [totals],
    absent ones counting for 0; [byDay] has one entry per date of
    [daily], holding the [totalCost || 0] and [totalTokens || 0] of the
    last record with that date: a date that is listed twice is not added
    up, its later record replaces the earlier one. *)
Theorem transform_ccusage_days (rawData : UsageInput.t num) :
  Raw.totalCost (UsageInput.internal rawData) = None \/ UsageInput.daily rawData <> None ->
  scalarTotals (transformCcusageFormat rawData) =
    (Some (totalOf (UsageInput.totals rawData) (@Totals.totalCost num)),
     Some (totalOf (UsageInput.totals rawData) (@Totals.inputTokens num)),
     Some (totalOf (UsageInput.totals rawData) (@Totals.outputTokens num)),
     Some (totalOf (UsageInput.totals rawData) (@Totals.cacheCreationTokens num)),
     Some (totalOf (UsageInput.totals rawData) (@Totals.cacheReadTokens num))) /\
  obj_wf (dayEntries (transformCcusageFormat rawData)) /\
  (forall date,
     lookupDay date (transformCcusageFormat rawData) =
       lastOf (contributions date (map dayRecordEntry (dailyOf rawData)))) /\
  (forall date,
     In date (obj_keys (dayEntries (transformCcusageFormat rawData))) <->
     In date (map (@DailyRecord.date num) (dailyOf rawData))).
Proof.
  intros H. rewrite (transformCcusageFormat_ccusage rawData H).
  split; [reflexivity|]. unfold lookupDay, dayEntries. cbn [Raw.byDay entriesOf].
  assert (Hget : forall date,
            obj_get date (fold_left (fun a e => obj_set (fst e) (snd e) a)
                            (map dayRecordEntry (dailyOf rawData)) []) =
            lastOf (contributions date (map dayRecordEntry (dailyOf rawData)))).
  { intros date. rewrite obj_set_fold_get. cbn [obj_get].
    destruct (lastOf _); reflexivity. }
  split; [|split].
  - apply obj_set_fold_wf. constructor.
  - exact Hget.
  - intros date.
    assert (Hkeys : obj_keys (map dayRecordEntry (dailyOf rawData)) =
                    map (@DailyRecord.date num) (dailyOf rawData)).
    { unfold obj_keys. rewrite map_map. reflexivity. }
    rewrite <- Hkeys. split; intros Hin.
    + destruct (in_dec string_dec date (obj_keys (map dayRecordEntry (dailyOf rawData))))
        as [Hyes|Hno]; [exact Hyes|].
      apply contributions_nil in Hno.
      assert (Hnone : obj_get date (fold_left (fun a e => obj_set (fst e) (snd e) a)
                            (map dayRecordEntry (dailyOf rawData)) []) = None)
        by (rewrite Hget, Hno; reflexivity).
      apply obj_get_none in Hnone. contradiction.
    + destruct (in_dec string_dec date
                  (obj_keys (fold_left (fun a e => obj_set (fst e) (snd e) a)
                               (map dayRecordEntry (dailyOf rawData)) [])))
        as [Hyes|Hno]; [exact Hyes|].
      apply obj_get_none in Hno. rewrite Hget in Hno.
      apply lastOf_none in Hno. apply contributions_nil in Hno. contradiction.
Qed.


Lemma transformCcusageFormat_totalCost (rawData : UsageInput.t num) :
  Raw.totalCost (transformCcusageFormat rawData) <> None.
Proof.
  destruct (Raw.totalCost (UsageInput.internal rawData)) as [c|] eqn:Hc;
    destruct (UsageInput.daily rawData) as [daily|] eqn:Hd.
  - rewrite transformCcusageFormat_ccusage by (right; congruence). discriminate.
  - unfold transformCcusageFormat. rewrite Hc, Hd. congruence.
  - rewrite transformCcusageFormat_ccusage by (now left). discriminate.
  - rewrite transformCcusageFormat_ccusage by (now left). discriminate.
Qed.

(** X16.  Whatever the input, the result of [transformCcusageFormat] has a
    [totalCost], and transforming it again returns it as it is: the
    transformation is idempotent. *)
Theorem transform_idempotent (rawData : UsageInput.t num) :
  Raw.totalCost (transformCcusageFormat rawData) <> None /\
  transformCcusageFormat (asInput (transformCcusageFormat rawData)) =
    transformCcusageFormat rawData.
Proof.
  pose proof (transformCcusageFormat_totalCost rawData) as H.
  split; [exact H|].
  unfold transformCcusageFormat at 1. unfold asInput.
  cbn [UsageInput.internal UsageInput.daily].
  destruct (Raw.totalCost (transformCcusageFormat rawData)); [reflexivity|congruence].
Qed.

End TransformExtras.

Lemma transform_ccusage_days_witness :
  lookupDay "2025-01-13" (transformCcusageFormat ccusageSample) =
    Some (DayStats.mk (Some 30%float) (Some 0%float)) /\
  lookupDay "2025-01-13" (transformCcusageFormat ccusageSample) =
    lastOf (contributions "2025-01-13" (map dayRecordEntry (dailyOf ccusageSample))).
Proof.
  split; [reflexivity|].
  refine (proj1 (proj2 (proj2 (transform_ccusage_days ccusageSample _))) "2025-01-13").
  right. discriminate.
Defined.


(** ** Further properties: validateData *)

Section ValidateExtras.

Context {num : Type} {N : JSNumber num}.

(** X23.  An object with an array [daily], or with a truthy [totals] and
    no truthy [daily], whose [totals] is absent or an object, is valid
    whatever its [totalCost], [byModel] and [byDay] are: in the ccusage
    shape the checks of the internal format are not made.  And
    "daily must be an array" is reported only when [totals] is truthy. *)
Theorem ccusage_shape_skips_internal_checks (data : value num) :
  truthy data = true -> typeof data = "object" ->
  ((Array_isArray (prop data "daily") = true \/
    (truthy (prop data "daily") = false /\ truthy (prop data "totals") = true)) ->
   (truthy (prop data "totals") = false \/ typeof (prop data "totals") = "object") ->
   validateData data = Validation.mk true []) /\
  (In "daily must be an array" (Validation.errors (validateData data)) ->
   truthy (prop data "totals") = true /\ Array_isArray (prop data "daily") = false /\
   ~ In "totalCost must be a number" (Validation.errors (validateData data))).
Proof.
  intros Ht Hty. destruct (validateData_object data Ht Hty) as [He Hv].
  cbv zeta in He. split.
  - intros Hshape Htotals.
    assert (Hfmt : Array_isArray (prop data "daily") || truthy (prop data "totals") = true).
    { destruct Hshape as [-> | [_ ->]]; [reflexivity|apply orb_true_r]. }
    assert (Hd : truthy (prop data "daily") && negb (Array_isArray (prop data "daily"))
                 = false).
    { destruct Hshape as [-> | [-> _]]; [apply andb_false_r|reflexivity]. }
    assert (Hto : truthy (prop data "totals")
                  && negb (String.eqb (typeof (prop data "totals")) "object") = false).
    { destruct Htotals as [-> | ->]; [reflexivity|apply andb_false_r]. }
    rewrite Hfmt, Hd, Hto in He. cbn in He.
    destruct (validateData data) as [valid errors]. cbn in *. subst. reflexivity.
  - intros Hin. rewrite He in Hin. rewrite He.
    destruct (Array_isArray (prop data "daily")) eqn:Ha; cbn [orb] in *.
    + rewrite andb_false_r in Hin. cbn in Hin.
      destruct (truthy (prop data "totals")
                && negb (String.eqb (typeof (prop data "totals")) "object"));
        cbn in Hin; intuition discriminate.
    + destruct (truthy (prop data "totals")) eqn:Hto.
      * split; [reflexivity|]. split; [reflexivity|].
        unfold failing.
        destruct (truthy (prop data "daily") && negb false);
          destruct (true && negb (String.eqb (typeof (prop data "totals")) "object"));
          cbn; intuition discriminate.
      * exfalso. unfold failing in Hin.
        destruct (negb (String.eqb (typeof (prop data "totalCost")) "number"));
          destruct (truthy (prop data "byModel")
                    && negb (String.eqb (typeof (prop data "byModel")) "object"));
          destruct (truthy (prop data "byDay")
                    && negb (String.eqb (typeof (prop data "byDay")) "object"));
          cbn in Hin; intuition discriminate.
Qed.



End ValidateExtras.

Lemma ccusage_shape_skips_internal_checks_witness :
  validateData (VObject [("daily", VArray []); ("totalCost", @VString float "x")]) =
    Validation.mk true [].
Proof.
  apply (proj1 (ccusage_shape_skips_internal_checks
                  (VObject [("daily", VArray []); ("totalCost", @VString float "x")])
                  eq_refl eq_refl)).
  - left. reflexivity.
  - left. reflexivity.
Defined.
